(** * A browser image editor with a painted edit mask

    Shallow embedding of the client component [ImageEditor.tsx] (upload and
    compression, mask painting, overlay, alpha-mask export, submission) and
    of the server route that forwards an edit request to the image API.

    Conventions.
    - Pixel channels and array elements are [Z] values in [0, 255]; a typed
      array is a [list Z] read with [!!] and written in place with
      [<[i:=v]>], which, like a typed array, ignores a write past the end.
    - JavaScript numbers that carry fractions (JPEG quality, scaled widths,
      pointer coordinates) are IEEE binary64 values, [float].
    - What the browser decides (decoding a file, encoding a canvas, the
      rasteriser's coverage of a disc, layout, the network) is a field of
      the environment record [Env]. *)

From Equations Require Import Equations.
From Equations.Prop Require Import Logic.
From Stdlib Require Import ZArith Lia String Ascii.
From Stdlib Require Import Floats.
From stdpp Require Import base numbers option list strings pretty.

#[local] Open Scope Z_scope.
#[local] Set Warnings "-inexact-float".

(** ** JavaScript strings *)

Module JS.

(** A string value is a sequence of UTF-16 code units. *)
Definition jsstring := list N.

Definition codeUnits (s : string) : jsstring :=
  List.map N_of_ascii (list_ascii_of_string s).

(** ECMAScript WhiteSpace and LineTerminator code points, the characters
    [String.prototype.trim] strips. *)
Definition isWhiteSpace (c : N) : bool :=
  ((9 <=? c) && (c <=? 13) || (c =? 32) || (c =? 160) || (c =? 5760)
   || (8192 <=? c) && (c <=? 8202) || (c =? 8232) || (c =? 8233)
   || (c =? 8239) || (c =? 8287) || (c =? 12288) || (c =? 65279))%N.

Fixpoint trimStart (s : jsstring) : jsstring :=
  match s with
  | c :: s' => if isWhiteSpace c then trimStart s' else s
  | [] => []
  end.

Definition trimEnd (s : jsstring) : jsstring := rev (trimStart (rev s)).

Definition trim (s : jsstring) : jsstring := trimEnd (trimStart s).

(** Truthiness of a string: the empty string is falsy. *)
Definition truthy (s : jsstring) : bool :=
  match s with [] => false | _ => true end.

(** [String.prototype.startsWith] and [includes] on literal text. *)
Fixpoint startsWith (s p : string) : bool :=
  match p, s with
  | EmptyString, _ => true
  | String a p', String b s' => Ascii.eqb a b && startsWith s' p'
  | String _ _, EmptyString => false
  end.

Fixpoint includes (s p : string) : bool :=
  startsWith s p ||
  match s with
  | EmptyString => false
  | String _ s' => includes s' p
  end.

(** [Math.max] on numbers that are never NaN here. *)
Definition fmax (a b : float) : float := if PrimFloat.ltb a b then b else a.

(** An integer below 2^53 as a double (exact). *)
Definition ofZ (z : Z) : float :=
  if z <? 0 then PrimFloat.opp (PrimFloat.of_uint63 (Uint63.of_Z (- z)))
  else PrimFloat.of_uint63 (Uint63.of_Z z).

(** Conversion of a double to an [unsigned long] attribute such as
    [canvas.width]: truncation toward zero, NaN and infinities to 0,
    negative values wrapping out of range are not met here and give 0. *)
Definition toUint (f : float) : nat :=
  match Prim2SF f with
  | S754_finite false m e =>
      Z.to_nat (if 0 <=? e then Z.pos m * 2 ^ e else Z.pos m / 2 ^ (- e))
  | _ => O
  end.

End JS.

(** ** Rasters *)

Record Pixel := RGBA { red : Z; green : Z; blue : Z; alpha : Z }.

Definition transparent : Pixel := RGBA 0 0 0 0.
Definition black : Pixel := RGBA 0 0 0 255.
Definition white : Pixel := RGBA 255 255 255 255.

(** Conversion on a store into a [Uint8ClampedArray]. *)
Definition clamp8 (v : Z) : Z := Z.max 0 (Z.min 255 v).

Definition store (d : list Z) (i : nat) (v : Z) : list Z := <[i := clamp8 v]> d.

(** [d[i] > 128], where reading past the end gives [undefined] and the
    comparison is then false. *)
Definition above128 (d : list Z) (i : nat) : bool :=
  match d !! i with
  | Some v => 128 <? v
  | None => false
  end.

(** [for (let i = 0; i < len; i += 4) body(i)], the state threaded through. *)
Fixpoint forFrom {A} (n i : nat) (body : nat -> A -> A) (acc : A) : A :=
  match n with
  | O => acc
  | S n' => forFrom n' (i + 4)%nat body (body i acc)
  end.

Definition forStride4 {A} (len : nat) (body : nat -> A -> A) (acc : A) : A :=
  forFrom ((len + 3) / 4)%nat 0%nat body acc.

Module ImageData.
(** The [ImageData] interface: [data] is the flat RGBA array, row-major,
    four elements per pixel. *)
Record t := mk { width : nat; height : nat; data : list Z }.

Definition flatten (ps : list Pixel) : list Z :=
  ps ≫= (fun p => [red p; green p; blue p; alpha p]).

(** Pixel [p] of a flat array; an element past the end reads as 0. *)
Definition pixelAt (d : list Z) (p : nat) : Pixel :=
  RGBA (default 0 (d !! (4 * p)%nat)) (default 0 (d !! (4 * p + 1)%nat))
       (default 0 (d !! (4 * p + 2)%nat)) (default 0 (d !! (4 * p + 3)%nat)).
End ImageData.

Module Image.
(** A decoded image element: natural size and pixels. *)
Record t := mk { width : nat; height : nat; pixels : list Pixel }.
End Image.

Module Canvas.
(** A canvas element with its output bitmap, row-major. *)
Record t := mk { width : nat; height : nat; bitmap : list Pixel }.

(** A canvas as the document creates it: 300 by 150, transparent black. *)
Definition fresh : t := mk 300 150 (replicate (300 * 150) transparent).

(** Assigning [width] or [height] resets the bitmap. *)
Definition setWidth (w : nat) (c : t) : t :=
  mk w (height c) (replicate (w * height c) transparent).
Definition setHeight (h : nat) (c : t) : t :=
  mk (width c) h (replicate (width c * h) transparent).

(** [fillRect(0, 0, w, h)] with an opaque colour: every pixel whose
    column is below [w] and row below [h] takes the colour. *)
Definition fillRect (colour : Pixel) (w h : nat) (c : t) : t :=
  mk (width c) (height c)
     (imap (fun p old =>
              if (p mod width c <? w)%nat && (p / width c <? h)%nat
              then colour else old)
           (resize (width c * height c) transparent (bitmap c))).

(** [clearRect(0, 0, w, h)]. *)
Definition clearRect (w h : nat) (c : t) : t := fillRect transparent w h c.

(** Copying a [sw] by [sh] block of pixels to the origin, as
    [putImageData(d, 0, 0)] does, and as [drawImage(img, 0, 0)] does on a
    cleared canvas. *)
Definition blit (sw sh : nat) (src : nat -> Pixel) (c : t) : t :=
  mk (width c) (height c)
     (imap (fun p old =>
              let x := (p mod width c)%nat in
              let y := (p / width c)%nat in
              if (x <? sw)%nat && (y <? sh)%nat then src (y * sw + x)%nat
              else old)
           (resize (width c * height c) transparent (bitmap c))).

Definition putImageData (d : ImageData.t) (c : t) : t :=
  blit (ImageData.width d) (ImageData.height d)
       (ImageData.pixelAt (ImageData.data d)) c.

Definition drawImage (img : Image.t) (c : t) : t :=
  blit (Image.width img) (Image.height img)
       (fun p => default transparent (Image.pixels img !! p)) c.

(** [getImageData(0, 0, canvas.width, canvas.height)]. *)
Definition getImageData (c : t) : ImageData.t :=
  ImageData.mk (width c) (height c)
    (ImageData.flatten (resize (width c * height c) transparent (bitmap c))).

(** [createImageData(w, h)]: transparent black. *)
Definition createImageData (w h : nat) : ImageData.t :=
  ImageData.mk w h (replicate (w * h * 4) 0).

(** The quotient [num / den] rounded to the nearest integer. *)
Definition nearest (num den : Z) : Z := (2 * num + den) / (2 * den).

(** Source-over compositing of opaque white with coverage [a] (0..255)
    onto a pixel, channels read back unpremultiplied and rounded to the
    nearest byte. *)
Definition paintWhite (a : Z) (p : Pixel) : Pixel :=
  let a := clamp8 a in
  let den := 255 * a + alpha p * (255 - a) in
  if den <=? 0 then p
  else
    let ch c := nearest (255 * 255 * a + c * alpha p * (255 - a)) den in
    RGBA (ch (red p)) (ch (green p)) (ch (blue p)) (nearest den 255).

(** [fillStyle = 'white'; beginPath(); arc(...); fill()], given the
    rasteriser's coverage of each pixel by the disc. *)
Definition fillWhite (coverage : nat -> Z) (c : t) : t :=
  mk (width c) (height c)
     (imap (fun p old => paintWhite (coverage p) old)
           (resize (width c * height c) transparent (bitmap c))).
End Canvas.

(** ** Files, blobs and the browser environment *)

(** What a blob holds: bytes the user supplied, or the encoding of a
    raster in some format at some quality. *)
Inductive Body :=
| UserBytes (id : Z)
| Encoded (mime : string) (quality : option float) (raster : ImageData.t).

Module Blob.
Record t := mk { size : Z; type : string; body : Body }.
End Blob.

Module File.
Record t := mk { name : string; size : Z; type : string;
                 lastModified : Z; body : Body }.

(** [new File([blob], name, { type, lastModified })]. *)
Definition ofBlob (b : Blob.t) (name type : string) (lastModified : Z) : t :=
  mk name (Blob.size b) type lastModified (Blob.body b).
End File.

(** A position on the canvas, and a layout box. *)
Record Position := { x : float; y : float }.
Record DOMRect := { left : float; top : float; rectWidth : float; rectHeight : float }.

(** The multipart form the client posts. *)
Record FormData := { formImage : File.t; formMask : Blob.t; formPrompt : JS.jsstring }.

Record ApiResponse := { success : bool; editedImageUrl : option string;
                        apiError : option string }.

(** Outcome of [fetch] followed by reading the body: the call throws, or a
    response arrives with a status, its text, and its JSON if it parses. *)
Inductive Parsed :=
| Json (result : ApiResponse)
| ParseThrows (isError : bool) (message : string).

Inductive FetchResult :=
| FetchThrows (isError : bool) (message : string)
| FetchResponse (status : Z) (json : Parsed).

Inductive ReadResult :=
| ReadError
| ReadLoad (result : string).

Record Env := {
  (** Loading a file into an image element: [onload] with the decoded
      image, or [onerror]. *)
  loadImage : File.t -> option Image.t;
  (** Whether [getContext('2d')] returns a context (it does wherever the
      browser has the 2-D canvas API). *)
  context2d : bool;
  (** [drawImage(img, 0, 0, w, h)]: the resampled pixels on a canvas. *)
  drawImageScaled : Image.t -> float -> float -> Canvas.t -> Canvas.t;
  (** The encoder behind [toBlob]: the byte length of the encoding, or a
      null blob. *)
  encodedSize : string -> option float -> ImageData.t -> option Z;
  (** [Date.now()]. *)
  now : Z;
  (** [FileReader.readAsDataURL]. *)
  readAsDataURL : File.t -> ReadResult;
  (** [getBoundingClientRect()] of the displayed canvas. *)
  getBoundingClientRect : Canvas.t -> DOMRect;
  (** Coverage (0..255) of pixel [p] of a [w] by [h] bitmap by the disc
      of centre [(x, y)] and radius [r]. *)
  coverage : float -> float -> float -> nat -> nat -> nat -> Z;
  (** The network. *)
  fetch : FormData -> FetchResult
}.

(** [canvas.toBlob(callback, mime, quality)]: the blob handed to the
    callback, or null. *)
Definition toBlob (env : Env) (c : Canvas.t) (mime : string)
    (quality : option float) : option Blob.t :=
  let raster := Canvas.getImageData c in
  match encodedSize env mime quality raster with
  | Some n => Some (Blob.mk n mime (Encoded mime quality raster))
  | None => None
  end.

(** [canvas.toDataURL(mime)]: the data URL, held as the encoding it carries. *)
Definition toDataURL (c : Canvas.t) (mime : string) : Body :=
  Encoded mime None (Canvas.getImageData c).

(** ** The Compressor *)

Module Compressor.

(** What the compressor asks of the browser, in order. *)
Inductive Event :=
| LoadImage
| ToBlob (targetQuality : float) (targetDimension : Z).

Definition logged (e : Event) (r : File.t * list Event) : File.t * list Event :=
  (fst r, e :: snd r).

(** The new dimensions: the longer side is brought down to
    [targetDimension], the other in proportion. [targetDimension] only
    takes the values 1200, 1000, 800, 600, 400 and is carried as an
    integer; it meets [width] and [height] as a double. *)
Definition newDimensions (img : Image.t) (targetDimension : Z) : float * float :=
  let width := JS.ofZ (Z.of_nat (Image.width img)) in
  let height := JS.ofZ (Z.of_nat (Image.height img)) in
  let target := JS.ofZ targetDimension in
  if PrimFloat.ltb height width then
    if PrimFloat.ltb target width
    then (target, PrimFloat.div (PrimFloat.mul height target) width)
    else (width, height)
  else
    if PrimFloat.ltb target height
    then (PrimFloat.div (PrimFloat.mul width target) height, target)
    else (width, height).

(** The scratch canvas after it is resized, cleared and drawn on. *)
Definition scratch (env : Env) (img : Image.t) (targetDimension : Z) : Canvas.t :=
  let '(width, height) := newDimensions img targetDimension in
  let canvas := Canvas.setHeight (JS.toUint height)
                  (Canvas.setWidth (JS.toUint width) Canvas.fresh) in
  drawImageScaled env img width height
    (Canvas.clearRect (JS.toUint width) (JS.toUint height) canvas).

Section WithFile.
Context (env : Env) (file : File.t) (maxSizeKB : Z) (img : Image.t).

Definition compressedFile (blob : Blob.t) : File.t :=
  File.ofBlob blob (File.name file) "image/jpeg" (now env).

Definition tooLarge (f : File.t) : bool := maxSizeKB * 1024 <? File.size f.

Definition canRetry (targetQuality : float) (targetDimension : Z) : bool :=
  PrimFloat.ltb 0.1 targetQuality && (400 <? targetDimension).

Equations? compressWithSettings (targetQuality : float) (targetDimension : Z)
  : File.t * list Event by wf (Z.to_nat (targetDimension - 400)) lt :=
compressWithSettings targetQuality targetDimension with context2d env := {
  | false => (file, [])
  | true with toBlob env (scratch env img targetDimension) "image/jpeg"
                (Some targetQuality) := {
    | None => (file, [ToBlob targetQuality targetDimension])
    | Some blob with inspect (tooLarge (compressedFile blob)) := {
      | exist _ false _ =>
          (compressedFile blob, [ToBlob targetQuality targetDimension])
      | exist _ true _ with inspect (canRetry targetQuality targetDimension) := {
        | exist _ true Hretry =>
            let newQuality := JS.fmax 0.1 (PrimFloat.sub targetQuality 0.2) in
            let newDimension := Z.max 400 (targetDimension - 200) in
            logged (ToBlob targetQuality targetDimension)
                   (compressWithSettings newQuality newDimension)
        | exist _ false _ =>
            (compressedFile blob, [ToBlob targetQuality targetDimension])
        }
      }
    }
  }.
Proof.
  unfold canRetry in Hretry.
  apply andb_prop in Hretry as [_ Hd]. apply Z.ltb_lt in Hd. lia.
Qed.
End WithFile.

(** [compressImage(file, maxSizeKB)]: the file the promise resolves with
    (it is never rejected), and what was asked of the browser. *)
Definition compressImage (env : Env) (file : File.t) (maxSizeKB : Z)
  : File.t * list Event :=
  if File.size file <=? maxSizeKB * 1024 then (file, [])
  else
    match loadImage env file with
    | Some img =>
        let quality := if 10 * 1024 * 1024 <? File.size file then 0.3%float else 0.7%float in
        let maxDimension := if 10 * 1024 * 1024 <? File.size file then 800 else 1200 in
        logged LoadImage (compressWithSettings env file maxSizeKB img quality maxDimension)
    | None => (file, [LoadImage])
    end.

End Compressor.

(** ** The editor component *)

Module Editor.

(** A pointer event as the handlers see it: a mouse event has [clientX]
    and [clientY], a touch event has [touches]. *)
Inductive PointerEvent :=
| MouseEvent (clientX clientY : float)
| TouchEvent (touches : list (float * float)).

(** The component's refs and state, with two logs of what it asked of
    the browser: the bodies passed to [fetch] and the downloads started,
    latest first. A data URL is held as the encoding it carries. *)
Record State := mkState {
  canvasRef : option Canvas.t;
  maskCanvasRef : option Canvas.t;
  originalImageDataRef : option ImageData.t;
  image : option Image.t;
  originalFile : option File.t;
  isDrawing : bool;
  brushSize : Z;
  prompt : JS.jsstring;
  editedImage : option string;
  maskImage : option Body;
  isLoading : bool;
  error : string;
  requests : list FormData;
  downloads : list (string * Body)
}.

Definition initial : State :=
  mkState None None None None None false 20 [] None None false "" [] [].

Definition withCanvas (v : option Canvas.t) (s : State) : State :=
  mkState v (maskCanvasRef s) (originalImageDataRef s) (image s)
    (originalFile s) (isDrawing s) (brushSize s) (prompt s) (editedImage s)
    (maskImage s) (isLoading s) (error s) (requests s) (downloads s).
Definition withMaskCanvas (v : option Canvas.t) (s : State) : State :=
  mkState (canvasRef s) v (originalImageDataRef s) (image s)
    (originalFile s) (isDrawing s) (brushSize s) (prompt s) (editedImage s)
    (maskImage s) (isLoading s) (error s) (requests s) (downloads s).
Definition withOriginalImageData (v : option ImageData.t) (s : State) : State :=
  mkState (canvasRef s) (maskCanvasRef s) v (image s)
    (originalFile s) (isDrawing s) (brushSize s) (prompt s) (editedImage s)
    (maskImage s) (isLoading s) (error s) (requests s) (downloads s).
Definition setImage (v : option Image.t) (s : State) : State :=
  mkState (canvasRef s) (maskCanvasRef s) (originalImageDataRef s) v
    (originalFile s) (isDrawing s) (brushSize s) (prompt s) (editedImage s)
    (maskImage s) (isLoading s) (error s) (requests s) (downloads s).
Definition setOriginalFile (v : option File.t) (s : State) : State :=
  mkState (canvasRef s) (maskCanvasRef s) (originalImageDataRef s) (image s)
    v (isDrawing s) (brushSize s) (prompt s) (editedImage s)
    (maskImage s) (isLoading s) (error s) (requests s) (downloads s).
Definition setIsDrawing (v : bool) (s : State) : State :=
  mkState (canvasRef s) (maskCanvasRef s) (originalImageDataRef s) (image s)
    (originalFile s) v (brushSize s) (prompt s) (editedImage s)
    (maskImage s) (isLoading s) (error s) (requests s) (downloads s).
Definition setBrushSize (v : Z) (s : State) : State :=
  mkState (canvasRef s) (maskCanvasRef s) (originalImageDataRef s) (image s)
    (originalFile s) (isDrawing s) v (prompt s) (editedImage s)
    (maskImage s) (isLoading s) (error s) (requests s) (downloads s).
Definition setPrompt (v : JS.jsstring) (s : State) : State :=
  mkState (canvasRef s) (maskCanvasRef s) (originalImageDataRef s) (image s)
    (originalFile s) (isDrawing s) (brushSize s) v (editedImage s)
    (maskImage s) (isLoading s) (error s) (requests s) (downloads s).
Definition setEditedImage (v : option string) (s : State) : State :=
  mkState (canvasRef s) (maskCanvasRef s) (originalImageDataRef s) (image s)
    (originalFile s) (isDrawing s) (brushSize s) (prompt s) v
    (maskImage s) (isLoading s) (error s) (requests s) (downloads s).
Definition setMaskImage (v : option Body) (s : State) : State :=
  mkState (canvasRef s) (maskCanvasRef s) (originalImageDataRef s) (image s)
    (originalFile s) (isDrawing s) (brushSize s) (prompt s) (editedImage s)
    v (isLoading s) (error s) (requests s) (downloads s).
Definition setIsLoading (v : bool) (s : State) : State :=
  mkState (canvasRef s) (maskCanvasRef s) (originalImageDataRef s) (image s)
    (originalFile s) (isDrawing s) (brushSize s) (prompt s) (editedImage s)
    (maskImage s) v (error s) (requests s) (downloads s).
Definition setError (v : string) (s : State) : State :=
  mkState (canvasRef s) (maskCanvasRef s) (originalImageDataRef s) (image s)
    (originalFile s) (isDrawing s) (brushSize s) (prompt s) (editedImage s)
    (maskImage s) (isLoading s) v (requests s) (downloads s).
Definition sent (v : FormData) (s : State) : State :=
  mkState (canvasRef s) (maskCanvasRef s) (originalImageDataRef s) (image s)
    (originalFile s) (isDrawing s) (brushSize s) (prompt s) (editedImage s)
    (maskImage s) (isLoading s) (error s) (v :: requests s) (downloads s).
Definition downloaded (name : string) (href : Body) (s : State) : State :=
  mkState (canvasRef s) (maskCanvasRef s) (originalImageDataRef s) (image s)
    (originalFile s) (isDrawing s) (brushSize s) (prompt s) (editedImage s)
    (maskImage s) (isLoading s) (error s) (requests s)
    ((name, href) :: downloads s).

(** [setupCanvas(img)]. *)
Definition setupCanvas (env : Env) (img : Image.t) (s : State) : State :=
  match canvasRef s, maskCanvasRef s with
  | Some canvas, Some maskCanvas =>
      if context2d env && context2d env then
        let canvas :=
          Canvas.setHeight (Image.height img)
            (Canvas.setWidth (Image.width img) canvas) in
        let maskCanvas :=
          Canvas.setHeight (Image.height img)
            (Canvas.setWidth (Image.width img) maskCanvas) in
        let canvas :=
          Canvas.drawImage img
            (Canvas.clearRect (Canvas.width canvas) (Canvas.height canvas) canvas) in
        let original := Canvas.getImageData canvas in
        let maskCanvas :=
          Canvas.fillRect black (Image.width img) (Image.height img) maskCanvas in
        withMaskCanvas (Some maskCanvas)
          (withOriginalImageData (Some original)
             (withCanvas (Some canvas) s))
      else s
  | _, _ => s
  end.

(** [handleImageUpload(event)], with [event.target.files?.[0]] as
    [file]. The awaited compression and the reader and image callbacks
    are run to their end in one step. The two state updates in the image
    callback are batched, so [setupCanvas] sees the refs as they were
    when the upload began. Nothing in the [try] block throws here
    ([compressImage] never rejects), so its [catch] is not reached. *)
Definition handleImageUpload (env : Env) (file : option File.t) (s : State) : State :=
  match file with
  | None => s
  | Some file =>
      let s := setMaskImage None (setEditedImage None (setError "" s)) in
      let compressedFile := fst (Compressor.compressImage env file 4000) in
      let s := setOriginalFile (Some compressedFile) s in
      match readAsDataURL env compressedFile with
      | ReadError => setError "Failed to read file. Please try again." s
      | ReadLoad result =>
          if String.eqb result "" then s
          else
            match loadImage env compressedFile with
            | Some img => setupCanvas env img (setImage (Some img) s)
            | None => setError "Failed to load image. Please try another file." s
            end
      end
  end.

(** [getPosition(event)]. *)
Definition getPosition (env : Env) (event : PointerEvent) (s : State) : Position :=
  match canvasRef s with
  | None => {| x := 0; y := 0 |}
  | Some canvas =>
      let rect := getBoundingClientRect env canvas in
      let scaleX :=
        PrimFloat.div (JS.ofZ (Z.of_nat (Canvas.width canvas))) (rectWidth rect) in
      let scaleY :=
        PrimFloat.div (JS.ofZ (Z.of_nat (Canvas.height canvas))) (rectHeight rect) in
      let at_ (clientX clientY : float) :=
        {| x := PrimFloat.mul (PrimFloat.sub clientX (left rect)) scaleX;
           y := PrimFloat.mul (PrimFloat.sub clientY (top rect)) scaleY |} in
      match event with
      | TouchEvent ((clientX, clientY) :: _) => at_ clientX clientY
      | TouchEvent [] => {| x := 0; y := 0 |}
      | MouseEvent clientX clientY => at_ clientX clientY
      end
  end.

(** [data[i] = f(data[i])]; past the end the read is [undefined] and the
    store is ignored. *)
Definition modify (d : list Z) (i : nat) (f : Z -> Z) : list Z :=
  match d !! i with
  | Some v => store d i (f v)
  | None => d
  end.

(** The body of the overlay loop. *)
Definition tint (mask : list Z) (i : nat) (d : list Z) : list Z :=
  if above128 mask i then
    let d := modify d i (fun v => Z.min 255 (v + 100)) in
    let d := modify d (i + 1) (fun v => Z.max 0 (v - 50)) in
    modify d (i + 2) (fun v => Z.max 0 (v - 50))
  else d.

(** [updateCanvasWithMask()]. *)
Definition updateCanvasWithMask (env : Env) (s : State) : State :=
  match canvasRef s, maskCanvasRef s, originalImageDataRef s with
  | Some canvas, Some maskCanvas, Some original =>
      if context2d env && context2d env then
        let canvas := Canvas.putImageData original canvas in
        let maskImageData := Canvas.getImageData maskCanvas in
        let imageData := Canvas.getImageData canvas in
        let tinted :=
          forStride4 (length (ImageData.data maskImageData))
            (tint (ImageData.data maskImageData)) (ImageData.data imageData) in
        let canvas :=
          Canvas.putImageData
            (ImageData.mk (ImageData.width imageData)
               (ImageData.height imageData) tinted) canvas in
        withCanvas (Some canvas) s
      else s
  | _, _, _ => s
  end.

(** [drawMask(x, y)]. *)
Definition drawMask (env : Env) (x y : float) (s : State) : State :=
  match maskCanvasRef s with
  | None => s
  | Some maskCanvas =>
      if context2d env then
        let radius := PrimFloat.div (JS.ofZ (brushSize s)) 2 in
        let maskCanvas :=
          Canvas.fillWhite
            (coverage env x y radius (Canvas.width maskCanvas)
               (Canvas.height maskCanvas)) maskCanvas in
        updateCanvasWithMask env (withMaskCanvas (Some maskCanvas) s)
      else s
  end.

Definition startDrawing (env : Env) (event : PointerEvent) (s : State) : State :=
  let pos := getPosition env event s in
  drawMask env (x pos) (y pos) (setIsDrawing true s).

Definition continueDrawing (env : Env) (event : PointerEvent) (s : State) : State :=
  if isDrawing s then
    let pos := getPosition env event s in
    drawMask env (x pos) (y pos) s
  else s.

Definition stopDrawing (s : State) : State := setIsDrawing false s.

(** [clearMask()]. *)
Definition clearMask (env : Env) (s : State) : State :=
  match originalImageDataRef s with
  | None => s
  | Some original =>
      match canvasRef s, maskCanvasRef s with
      | Some canvas, Some maskCanvas =>
          if context2d env && context2d env then
            let maskCanvas :=
              Canvas.fillRect black (Canvas.width maskCanvas)
                (Canvas.height maskCanvas) maskCanvas in
            let canvas := Canvas.putImageData original canvas in
            withCanvas (Some canvas) (withMaskCanvas (Some maskCanvas) s)
          else s
      | _, _ => s
      end
  end.

(** The body of the export loop. *)
Definition toAlpha (mask : list Z) (i : nat) (d : list Z) : list Z :=
  let isWhite := above128 mask i in
  if isWhite then
    store (store (store (store d i 255) (i + 1) 255) (i + 2) 255) (i + 3) 255
  else
    store (store (store (store d i 0) (i + 1) 0) (i + 2) 0) (i + 3) 0.

(** The alpha mask computed from a mask canvas. *)
Definition alphaImageData (maskCanvas : Canvas.t) : ImageData.t :=
  let maskImageData := Canvas.getImageData maskCanvas in
  let alphaImageData :=
    Canvas.createImageData (Canvas.width maskCanvas) (Canvas.height maskCanvas) in
  ImageData.mk (ImageData.width alphaImageData) (ImageData.height alphaImageData)
    (forStride4 (length (ImageData.data maskImageData))
       (toAlpha (ImageData.data maskImageData)) (ImageData.data alphaImageData)).

(** The canvas the alpha mask is put on. *)
Definition alphaCanvasFor (maskCanvas : Canvas.t) : Canvas.t :=
  Canvas.setHeight (Canvas.height maskCanvas)
    (Canvas.setWidth (Canvas.width maskCanvas) Canvas.fresh).

(** [generateMaskImage()]. *)
Definition generateMaskImage (env : Env) (s : State) : State :=
  match maskCanvasRef s with
  | None => setError "Mask canvas not found" s
  | Some maskCanvas =>
      if negb (context2d env) then
        setError "Mask canvas context not found" s
      else
        let alphaCanvas := alphaCanvasFor maskCanvas in
        if negb (context2d env) then
          setError "Alpha canvas context not found" s
        else
          let alphaCanvas :=
            Canvas.putImageData (alphaImageData maskCanvas) alphaCanvas in
          let maskDataUrl := toDataURL alphaCanvas "image/png" in
          setError "" (setMaskImage (Some maskDataUrl) s)
  end.

(** [downloadMask()]. *)
Definition downloadMask (s : State) : State :=
  match maskImage s with
  | None => s
  | Some href => downloaded "mask.png" href s
  end.

(** An optional string property that is present and not empty. *)
Definition truthyString (v : option string) : option string :=
  match v with
  | Some t => if String.eqb t "" then None else Some t
  | None => None
  end.

(** [response.ok]. *)
Definition ok (status : Z) : bool := (200 <=? status) && (status <=? 299).

(** What the [try] block of [handleSubmit] ends with: the message of a
    thrown error, or the state after the response was handled. *)
Definition submitted (env : Env) (originalFile : File.t) (s : State)
  : State * option string :=
  match maskCanvasRef s with
  | None => (s, Some "Mask canvas not found")
  | Some maskCanvas =>
      match toBlob env maskCanvas "image/png" None with
      | None => (s, Some "Failed to create mask blob")
      | Some maskBlob =>
          let formData :=
            {| formImage := originalFile; formMask := maskBlob;
               formPrompt := prompt s |} in
          let s := sent formData s in
          let thrown (isError : bool) (message : string) :=
            if isError then message else "Unknown error occurred" in
          match fetch env formData with
          | FetchThrows isError message => (s, Some (thrown isError message))
          | FetchResponse status json =>
              if negb (ok status) then
                (s, Some ("API request failed with status " +:+ pretty status))
              else
                match json with
                | ParseThrows isError message => (s, Some (thrown isError message))
                | Json result =>
                    match success result, truthyString (editedImageUrl result) with
                    | true, Some url =>
                        (setError "" (setEditedImage (Some url) s), None)
                    | _, _ =>
                        (setError
                           (default "Failed to edit image - no URL returned"
                              (truthyString (apiError result))) s, None)
                    end
                end
          end
      end
  end.

(** [handleSubmit()]. *)
Definition handleSubmit (env : Env) (s : State) : State :=
  match originalFile s with
  | Some file =>
      if JS.truthy (JS.trim (prompt s)) then
        let s := setError "" (setIsLoading true s) in
        let '(s, thrown) := submitted env file s in
        let s :=
          match thrown with
          | Some errorMessage =>
              setError ("Error submitting request: " +:+ errorMessage) s
          | None => s
          end in
        setIsLoading false s
      else setError "Please upload an image and enter a prompt" s
  | None => setError "Please upload an image and enter a prompt" s
  end.

(** [handleBrushSizeChange(event)]: the range input's value is the text
    of an integer, which [parseInt] returns. *)
Definition handleBrushSizeChange (value : Z) (s : State) : State :=
  setBrushSize value s.

Definition handlePromptChange (value : JS.jsstring) (s : State) : State :=
  setPrompt value s.

(** The events of the component. *)
Inductive Action :=
| Upload (file : option File.t)
| StartDrawing (event : PointerEvent)
| ContinueDrawing (event : PointerEvent)
| StopDrawing
| ClearMask
| GenerateMask
| DownloadMask
| Submit
| BrushSizeChange (value : Z)
| PromptChange (value : JS.jsstring).

Definition handle (env : Env) (a : Action) (s : State) : State :=
  match a with
  | Upload file => handleImageUpload env file s
  | StartDrawing event => startDrawing env event s
  | ContinueDrawing event => continueDrawing env event s
  | StopDrawing => stopDrawing s
  | ClearMask => clearMask env s
  | GenerateMask => generateMaskImage env s
  | DownloadMask => downloadMask s
  | Submit => handleSubmit env s
  | BrushSizeChange value => handleBrushSizeChange value s
  | PromptChange value => handlePromptChange value s
  end.

(** The commit after a handler: the two canvases are in the tree only
    while [image] is set, and their refs are attached when they first
    appear. *)
Definition render (s : State) : State :=
  match image s with
  | Some _ =>
      let s := match canvasRef s with
               | None => withCanvas (Some Canvas.fresh) s
               | Some _ => s
               end in
      match maskCanvasRef s with
      | None => withMaskCanvas (Some Canvas.fresh) s
      | Some _ => s
      end
  | None => withMaskCanvas None (withCanvas None s)
  end.

Definition step (env : Env) (s : State) (a : Action) : State :=
  render (handle env a s).

Definition run (env : Env) (s : State) (actions : list Action) : State :=
  fold_left (step env) actions s.

End Editor.

(** ** The edit-image route *)

Module Gateway.

(** A template literal with a number in it is kept in pieces. *)
Inductive Piece :=
| Text (s : string)
| Number (v : float).

(** A value caught by [catch]: whether it is an [Error], its [status]
    property if it has one, and its message. *)
Record Thrown := { isError : bool; thrownStatus : option Z; message : string }.

Definition typeError (message : string) : Thrown :=
  {| isError := true; thrownStatus := None; message := message |}.

(** What [formData.get(name)] gives when the body has the field: the text
    of a text field or the file of a file field. The casts of the route
    ([as File | null], [as string | null]) check nothing when it runs. *)
Inductive Entry :=
| TextField (value : JS.jsstring)
| FileField (file : File.t).

(** The fields of the multipart body; [None] is the [null] of a field
    that the body does not have. *)
Record Form := { image : option Entry; mask : option Entry;
                 prompt : option Entry }.

(** An entry as a condition: a file is an object, a text is true when it
    is not empty. *)
Definition truthy (e : Entry) : bool :=
  match e with
  | TextField value => JS.truthy value
  | FileField _ => true
  end.

(** [file.size]: a string has no such property. *)
Definition sizeOf (e : Entry) : option Z :=
  match e with
  | TextField _ => None
  | FileField file => Some (File.size file)
  end.

(** [size > limit]; [undefined] is above no number. *)
Definition exceeds (size : option Z) (limit : Z) : bool :=
  match size with
  | Some s => limit <? s
  | None => false
  end.

(** [request.formData()] throws or gives the form. *)
Inductive Request :=
| Malformed (e : Thrown)
| Multipart (form : Form).

(** The argument of [openai.images.edit]. *)
Record EditParams := {
  model : string; apiImage : File.t; apiMask : File.t;
  apiPrompt : JS.jsstring; n : Z; size : string
}.

Record ImageDatum := { url : option string; b64_json : option string }.

Inductive ApiOutcome :=
| ApiThrows (e : Thrown)
| ApiReturns (data : option (list ImageDatum)).

Inductive Reply :=
| Failure (error : list Piece)
| Success (editedImageUrl : string).

(** [NextResponse.json(body, { status })]; the status is 200 when none
    is given. *)
Record Response := { body : Reply; status : Z }.

Definition failure (error : string) (status : Z) : Response :=
  {| body := Failure [Text error]; status := status |}.

(** [isValidImageFile(file)]: [file.type] of a string is undefined, and
    the call of [startsWith] on it throws a TypeError (the message is the
    one of V8). *)
Definition isValidImageFile (file : Entry) : Thrown + bool :=
  match file with
  | TextField _ =>
      inl (typeError "Cannot read properties of undefined (reading 'startsWith')")
  | FileField file => inr (JS.startsWith (File.type file) "image/")
  end.

(** [fileToBuffer(file)]: the file with its bytes read; reading the bytes
    of a file is taken to succeed. *)
Definition fileToBuffer (file : Entry) : Thrown + File.t :=
  match file with
  | TextField _ => inl (typeError "file.arrayBuffer is not a function")
  | FileField file => inr file
  end.

(** [Math.round] of a number that is not negative. *)
Definition round (v : float) : float :=
  let t := JS.ofZ (Z.of_nat (JS.toUint v)) in
  if PrimFloat.ltb (PrimFloat.sub v t) 0.5 then t else PrimFloat.add t 1.

(** [Math.round(size / 1024 / 1024 * 100) / 100]; of [undefined] it is
    NaN. *)
Definition megabytes (size : option Z) : float :=
  match size with
  | Some size =>
      PrimFloat.div
        (round (PrimFloat.mul
                  (PrimFloat.div (PrimFloat.div (JS.ofZ size) 1024) 1024) 100))
        100
  | None => PrimFloat.nan
  end.

Definition maxSize : Z := 4 * 1024 * 1024.

Definition newline : string := String (ascii_of_nat 10) EmptyString.

Definition promptHead : string :=
  "You are a professional landscape designer. You are given an image of a landscape and a mask indicating specific areas to edit. "
  +:+ newline +:+ newline
  +:+ "        Your task:" +:+ newline
  +:+ "        1. Only edit the areas specified by the mask (white/opaque areas)" +:+ newline
  +:+ "        2. Maintain the original landscape's style, lighting, and perspective, and the original house structure and roof, driveway, road, sidewalk, and other structures" +:+ newline
  +:+ "        3. Ensure the edited elements blend naturally with the existing landscape" +:+ newline
  +:+ newline
  +:+ "        Edit request: ".

Definition promptTail : string :=
  newline +:+ newline
  +:+ "        Please seamlessly integrate this edit into the masked areas while preserving the natural look of the landscape.".

Definition enhancedPrompt (prompt : JS.jsstring) : JS.jsstring :=
  JS.codeUnits promptHead ++ JS.trim prompt ++ JS.codeUnits promptTail.

(** The image URL taken from the first datum, if it has one. *)
Definition imageUrl (d : ImageDatum) : option string :=
  match Editor.truthyString (url d) with
  | Some u => Some u
  | None =>
      match Editor.truthyString (b64_json d) with
      | Some b => Some ("data:image/png;base64," +:+ b)
      | None => None
      end
  end.

(** The call of [openai.images.edit] and what the route makes of its
    result. *)
Definition edit (api : EditParams -> ApiOutcome) (params : EditParams)
  : (Response + Thrown) * list EditParams :=
  match api params with
  | ApiThrows e => (inr e, [params])
  | ApiReturns None
  | ApiReturns (Some []) =>
      (inl (failure "No edited image returned from OpenAI API" 500), [params])
  | ApiReturns (Some (imageData :: _)) =>
      match imageUrl imageData with
      | Some u => (inl {| body := Success u; status := 200 |}, [params])
      | None =>
          (inl (failure "Invalid response format from OpenAI API" 500), [params])
      end
  end.

(** The [try] block after the form is read: a response or a thrown
    value, and the calls made to the image API. [clock] gives the
    readings of the clock in the order they are taken: each [new File]
    takes one for its [lastModified]. *)
Definition attempt (api : EditParams -> ApiOutcome) (clock : nat -> Z) (form : Form)
  : (Response + Thrown) * list EditParams :=
  match image form, mask form, prompt form with
  | Some imageFile, Some maskFile, Some prompt =>
      if negb (truthy imageFile) || negb (truthy maskFile) || negb (truthy prompt) then
        (inl (failure "Missing required fields: image, mask, and prompt" 400), [])
      else if exceeds (sizeOf imageFile) maxSize then
        (inl {| body := Failure
                  [Text "Image file too large: ";
                   Number (megabytes (sizeOf imageFile));
                   Text "MB. Maximum allowed: 4MB. Please resize your image."];
                status := 400 |}, [])
      else if exceeds (sizeOf maskFile) maxSize then
        (inl {| body := Failure
                  [Text "Mask file too large: ";
                   Number (megabytes (sizeOf maskFile));
                   Text "MB. Maximum allowed: 4MB."];
                status := 400 |}, [])
      else
        match isValidImageFile imageFile with
        | inl e => (inr e, [])
        | inr false =>
            (inl (failure "Invalid image file type. Please upload a valid image file." 400), [])
        | inr true =>
        match isValidImageFile maskFile with
        | inl e => (inr e, [])
        | inr false =>
            (inl (failure "Invalid mask file type. Please provide a valid mask image." 400), [])
        | inr true =>
        match prompt with
        | FileField _ => (inl (failure "Prompt must be a non-empty string" 400), [])
        | TextField prompt =>
            if (length (JS.trim prompt) =? 0)%nat then
              (inl (failure "Prompt must be a non-empty string" 400), [])
            else
              match fileToBuffer imageFile with
              | inl e => (inr e, [])
              | inr imageBuffer =>
              match fileToBuffer maskFile with
              | inl e => (inr e, [])
              | inr maskBuffer =>
                  let imageForApi :=
                    File.mk "image.png" (File.size imageBuffer) (File.type imageBuffer)
                      (clock 0%nat) (File.body imageBuffer) in
                  let maskForApi :=
                    File.mk "mask.png" (File.size maskBuffer) (File.type maskBuffer)
                      (clock 1%nat) (File.body maskBuffer) in
                  edit api
                    {| model := "gpt-image-1"; apiImage := imageForApi;
                       apiMask := maskForApi; apiPrompt := enhancedPrompt prompt;
                       n := 1; size := "1024x1024" |}
              end
              end
        end
        end
        end
  | _, _, _ =>
      (inl (failure "Missing required fields: image, mask, and prompt" 400), [])
  end.

(** The [catch] block. *)
Definition recover (e : Thrown) : Response :=
  if isError e then
    let byMessage :=
      if JS.includes (message e) "Connection error"
         || JS.includes (message e) "ECONNRESET"
      then failure "Connection timeout. This usually happens with large files. Please try with a smaller image (under 2MB recommended)." 408
      else failure ("Failed to edit image: " +:+ message e) 500 in
    match thrownStatus e with
    | Some status =>
        if status =? 400 then failure "Invalid request to OpenAI API. Please check your image format, size, and mask. Make sure both images are the same dimensions and under 4MB." 400
        else if status =? 401 then failure "Invalid OpenAI API key. Please check your configuration." 401
        else if status =? 413 then failure "Files too large. Please reduce image size to under 4MB." 413
        else if status =? 429 then failure "Rate limit exceeded. Please try again later." 429
        else if status =? 500 then failure "OpenAI API server error. Please try again later." 500
        else byMessage
    | None => byMessage
    end
  else failure "An unexpected error occurred while editing the image" 500.

(** [POST(request)]: the response, and the calls made to the image API. *)
Definition POST (api : EditParams -> ApiOutcome) (clock : nat -> Z) (request : Request)
  : Response * list EditParams :=
  match request with
  | Malformed e => (recover e, [])
  | Multipart form =>
      match attempt api clock form with
      | (inl response, calls) => (response, calls)
      | (inr e, calls) => (recover e, calls)
      end
  end.

End Gateway.

(** ** A small browser to run the component in *)

Module Sample.

Definition picture : Image.t :=
  Image.mk 2 1 [RGBA 10 20 30 255; RGBA 200 100 50 255].

(** Coverage without antialiasing: a pixel is covered when its centre
    lies in the disc. *)
Definition disc (x y r : float) (w h p : nat) : Z :=
  let cx := PrimFloat.add (JS.ofZ (Z.of_nat (p mod w))) 0.5 in
  let cy := PrimFloat.add (JS.ofZ (Z.of_nat (p / w))) 0.5 in
  let dx := PrimFloat.sub cx x in
  let dy := PrimFloat.sub cy y in
  if PrimFloat.leb (PrimFloat.add (PrimFloat.mul dx dx) (PrimFloat.mul dy dy))
                   (PrimFloat.mul r r)
  then 255 else 0.

(** Files whose bytes are [UserBytes 0] do not decode; the JPEG encoder
    needs quality 0.4 or less to get under four million bytes. *)
Definition env : Env := {|
  loadImage := fun f =>
    match File.body f with
    | UserBytes 0 => None
    | _ => Some picture
    end;
  context2d := true;
  drawImageScaled := fun img _ _ c => Canvas.drawImage img c;
  encodedSize := fun mime quality raster =>
    match quality with
    | Some q => Some (if PrimFloat.ltb 0.4 q then 5000000 else 3000000)
    | None => Some (Z.of_nat (length (ImageData.data raster)) + 100)
    end;
  now := 1700000000000;
  readAsDataURL := fun _ => ReadLoad "data:image/png;base64,AAAA";
  getBoundingClientRect := fun c =>
    {| left := 0; top := 0;
       rectWidth := JS.ofZ (Z.of_nat (Canvas.width c));
       rectHeight := JS.ofZ (Z.of_nat (Canvas.height c)) |};
  coverage := disc;
  fetch := fun _ =>
    FetchResponse 200
      (Json {| success := true;
               editedImageUrl := Some "https://images.example/edited.png";
               apiError := None |})
|}.

(** The same browser with an encoder that never gets under budget. *)
Definition stubborn : Env := {|
  loadImage := loadImage env;
  context2d := context2d env;
  drawImageScaled := drawImageScaled env;
  encodedSize := fun _ _ _ => Some 5000000;
  now := now env;
  readAsDataURL := readAsDataURL env;
  getBoundingClientRect := getBoundingClientRect env;
  coverage := coverage env;
  fetch := fetch env
|}.

(** The same browser with a soft brush: every pixel is half covered. *)
Definition soft : Env := {|
  loadImage := loadImage env;
  context2d := context2d env;
  drawImageScaled := drawImageScaled env;
  encodedSize := encodedSize env;
  now := now env;
  readAsDataURL := readAsDataURL env;
  getBoundingClientRect := getBoundingClientRect env;
  coverage := fun _ _ _ _ _ _ => 127;
  fetch := fetch env
|}.

(** The same browser behind a server that answers 429. *)
Definition limited : Env := {|
  loadImage := loadImage env;
  context2d := context2d env;
  drawImageScaled := drawImageScaled env;
  encodedSize := encodedSize env;
  now := now env;
  readAsDataURL := readAsDataURL env;
  getBoundingClientRect := getBoundingClientRect env;
  coverage := coverage env;
  fetch := fun _ =>
    FetchResponse 429
      (Json {| success := false; editedImageUrl := None;
               apiError := Some "Rate limit exceeded. Please try again later." |})
|}.

Definition small : File.t := File.mk "small.png" 1000 "image/png" 0 (UserBytes 1).
Definition photo : File.t := File.mk "photo.png" 6000000 "image/png" 0 (UserBytes 2).
Definition border : File.t := File.mk "border.jpg" 4050000 "image/jpeg" 0 (UserBytes 3).
Definition empty : File.t := File.mk "empty.png" 0 "image/png" 0 (UserBytes 0).
Definition broken : File.t := File.mk "broken.png" 5000000 "image/png" 0 (UserBytes 0).

(** The clock of the server: it moves on by a millisecond between two
    readings. *)
Definition clock (k : nat) : Z := 1700000000000 + Z.of_nat k.

Definition pond : JS.jsstring := JS.codeUnits "add a pond".

(** A form with two files and a prompt, the same form with a blank
    prompt, and a form whose image field is a text. *)
Definition order : Gateway.Form :=
  {| Gateway.image := Some (Gateway.FileField small);
     Gateway.mask := Some (Gateway.FileField small);
     Gateway.prompt := Some (Gateway.TextField pond) |}.




(** After the first upload the canvases are mounted but not set up. *)
Definition mounted : Editor.State :=
  Editor.run env Editor.initial [Editor.Upload (Some small)].

(** After a second upload the canvases are set up for [picture]. *)
Definition ready : Editor.State :=
  Editor.run env mounted
    [Editor.Upload (Some small); Editor.PromptChange pond].

(** One stroke point on the canvases that were never set up. *)
Definition scribbled : Editor.State :=
  Editor.run env mounted [Editor.StartDrawing (Editor.MouseEvent 5 5)].

(** Two strokes of the soft brush on the set-up canvases: both pixels
    are grey and count as white. *)
Definition shaded : Editor.State :=
  Editor.run soft ready
    [Editor.StartDrawing (Editor.MouseEvent 0.5 0.5);
     Editor.ContinueDrawing (Editor.MouseEvent 0.5 0.5)].

End Sample.

(** ** Vocabulary of the statements *)

(** Element [k] of a pixel in the flat array. *)
Definition channel (k : nat) (px : Pixel) : Z :=
  match k with
  | 0%nat => red px
  | 1%nat => green px
  | 2%nat => blue px
  | _ => alpha px
  end.


(** Consecutive attempts in a compressor log: the earlier one was above
    both floors and the later one has the reduced settings. *)
Fixpoint chained (log : list Compressor.Event) : Prop :=
  match log with
  | Compressor.ToBlob q d :: rest =>
      match rest with
      | Compressor.ToBlob q' d' :: _ =>
          PrimFloat.ltb 0.1 q = true /\ 400 < d
          /\ q' = JS.fmax 0.1 (PrimFloat.sub q 0.2)
          /\ d' = Z.max 400 (d - 200)
          /\ chained rest
      | [] => True
      | _ => False
      end
  | [] => True
  | _ => False
  end.

(** The settings of the last attempt in a log. *)
Definition lastAttempt (log : list Compressor.Event) : option (float * Z) :=
  match last log with
  | Some (Compressor.ToBlob q d) => Some (q, d)
  | _ => None
  end.

(** Pixel [p] of a canvas is white for the code: the red element of the
    pixel in its image data is above 128. *)
Definition whiteAt (c : Canvas.t) (p : nat) : bool :=
  above128 (ImageData.data (Canvas.getImageData c)) (4 * p).

Definition whitePixels (c : Canvas.t) : nat :=
  length (List.filter (whiteAt c) (seq 0 (Canvas.width c * Canvas.height c))).

(** The size of the mask canvas of a state. *)
Definition maskSize (s : Editor.State) : option (nat * nat) :=
  (fun m => (Canvas.width m, Canvas.height m)) <$> Editor.maskCanvasRef s.

Definition isUpload (a : Editor.Action) : bool :=
  match a with
  | Editor.Upload _ => true
  | _ => false
  end.

(** The image data of the alpha mask held in [maskImage]. *)
Definition exported (s : Editor.State) : option ImageData.t :=
  match Editor.maskImage s with
  | Some (Encoded _ _ raster) => Some raster
  | _ => None
  end.

(** The image data of the mask in the latest request. *)
Definition submittedMask (s : Editor.State) : option ImageData.t :=
  match Editor.requests s with
  | request :: _ =>
      match Blob.body (formMask request) with
      | Encoded _ _ raster => Some raster
      | UserBytes _ => None
      end
  | [] => None
  end.

(** The image shown and the size of the mask canvas. *)
Definition frame (s : Editor.State) : option Image.t * option (nat * nat) :=
  (Editor.image s, maskSize s).

(** The settings [compressWithSettings] can go through from a start:
    each attempt that may be retried is followed by the reduced one. *)
Fixpoint schedule (n : nat) (q : float) (d : Z) : list Compressor.Event :=
  match n with
  | O => []
  | S n' =>
      Compressor.ToBlob q d
      :: (if Compressor.canRetry q d
          then schedule n' (JS.fmax 0.1 (PrimFloat.sub q 0.2)) (Z.max 400 (d - 200))
          else [])
  end.

(** The canvases are set up: both are mounted, the original image data
    has been taken, and the three have one size. *)
Definition setUp (s : Editor.State) : Prop :=
  match Editor.canvasRef s, Editor.maskCanvasRef s, Editor.originalImageDataRef s with
  | Some c, Some m, Some o =>
      ImageData.width o = Canvas.width c
      /\ ImageData.height o = Canvas.height c
      /\ length (ImageData.data o) = (4 * (Canvas.width c * Canvas.height c))%nat
      /\ Canvas.width m = Canvas.width c
      /\ Canvas.height m = Canvas.height c
  | _, _, _ => False
  end.

(** What the overlay stores in element [k] of a tinted pixel. *)
Definition tintChannel (k : nat) (v : Z) : Z :=
  match k with
  | 0%nat => clamp8 (Z.min 255 (v + 100))
  | 1%nat => clamp8 (Z.max 0 (v - 50))
  | 2%nat => clamp8 (Z.max 0 (v - 50))
  | _ => v
  end.

(** What the route checks before it calls the image API: the image and
    the mask are files, neither over the limit, both of an image type, and
    the prompt is a text that is not blank. *)
Definition acceptable (form : Gateway.Form) : bool :=
  match Gateway.image form, Gateway.mask form, Gateway.prompt form with
  | Some (Gateway.FileField imageFile), Some (Gateway.FileField maskFile),
    Some (Gateway.TextField prompt) =>
      (File.size imageFile <=? Gateway.maxSize)
      && (File.size maskFile <=? Gateway.maxSize)
      && JS.startsWith (File.type imageFile) "image/"
      && JS.startsWith (File.type maskFile) "image/"
      && JS.truthy (JS.trim prompt)
  | _, _, _ => false
  end.

(** A text stands where the route expects a file, and no earlier check
    turns the form down: the three fields are there and not empty, and
    either the image is a text and the mask a text or a file within the
    limit, or the image is a file within the limit and of an image type
    and the mask is a text. *)
Definition mistyped (form : Gateway.Form) : bool :=
  match Gateway.image form, Gateway.mask form, Gateway.prompt form with
  | Some imageFile, Some maskFile, Some prompt =>
      Gateway.truthy prompt
      && match imageFile, maskFile with
         | Gateway.TextField image, Gateway.TextField mask =>
             JS.truthy image && JS.truthy mask
         | Gateway.TextField image, Gateway.FileField mask =>
             JS.truthy image && (File.size mask <=? Gateway.maxSize)
         | Gateway.FileField image, Gateway.TextField mask =>
             (File.size image <=? Gateway.maxSize)
             && JS.startsWith (File.type image) "image/"
             && JS.truthy mask
         | Gateway.FileField _, Gateway.FileField _ => false
         end
  | _, _, _ => false
  end.

(** The one call the route makes for a form: the image file is stamped
    with the first reading of the clock and the mask file with the second. *)
Definition callFor (clock : nat -> Z) (imageFile maskFile : File.t)
    (prompt : JS.jsstring) : Gateway.EditParams :=
  {| Gateway.model := "gpt-image-1";
     Gateway.apiImage :=
       File.mk "image.png" (File.size imageFile) (File.type imageFile)
         (clock 0%nat) (File.body imageFile);
     Gateway.apiMask :=
       File.mk "mask.png" (File.size maskFile) (File.type maskFile)
         (clock 1%nat) (File.body maskFile);
     Gateway.apiPrompt := Gateway.enhancedPrompt prompt;
     Gateway.n := 1;
     Gateway.size := "1024x1024" |}.

(** * Properties *)

(** ** Rasters and the canvas *)

Lemma flatten_cons px ps :
  ImageData.flatten (px :: ps)
  = [red px; green px; blue px; alpha px] ++ ImageData.flatten ps.
Proof. reflexivity. Qed.

Lemma flatten_length ps : length (ImageData.flatten ps) = (4 * length ps)%nat.
Proof.
  induction ps as [|px ps IH]; [reflexivity|].
  rewrite flatten_cons, length_app, IH. simpl. lia.
Qed.

Lemma flatten_lookup ps j :
  ImageData.flatten ps !! j = channel (j mod 4) <$> ps !! (j / 4)%nat.
Proof.
  revert j. induction ps as [|px ps IH]; intros j; [reflexivity|].
  rewrite flatten_cons.
  destruct (decide (j < 4)%nat) as [Hj|Hj].
  - do 4 (destruct j as [|j]; [reflexivity|]). lia.
  - rewrite lookup_app_r by (simpl; lia). simpl length.
    rewrite IH.
    assert (Hm : (j mod 4 = (j - 4) mod 4)%nat).
    { replace j with ((j - 4) + 1 * 4)%nat at 1 by lia.
      apply Nat.Div0.mod_add. }
    assert (Hd : (j / 4 = S ((j - 4) / 4))%nat).
    { replace j with ((j - 4) + 1 * 4)%nat at 1 by lia.
      rewrite Nat.div_add by lia. lia. }
    rewrite Hm, Hd.
    reflexivity.
Qed.

Lemma clamp8_range v : 0 <= clamp8 v <= 255.
Proof. unfold clamp8. lia. Qed.

Lemma store_length d i v : length (store d i v) = length d.
Proof. apply length_insert. Qed.

Lemma toAlpha_length mask i d : length (Editor.toAlpha mask i d) = length d.
Proof.
  unfold Editor.toAlpha. destruct (above128 mask i); rewrite !store_length; reflexivity.
Qed.

(** One turn of the export loop writes the four elements from [i] on, as
    far as they are inside the array, and nothing else. *)
Lemma toAlpha_lookup mask i d j :
  Editor.toAlpha mask i d !! j
  = if decide ((i <= j < i + 4)%nat /\ (j < length d)%nat)
    then Some (if above128 mask i then 255 else 0)
    else d !! j.
Proof.
  unfold Editor.toAlpha, store.
  destruct (above128 mask i);
    rewrite !list_lookup_insert, !length_insert;
    repeat case_decide; try reflexivity; try lia;
    rewrite ?lookup_ge_None_2 by lia; reflexivity.
Qed.

Lemma forFrom_toAlpha_length mask n i d :
  length (forFrom n i (Editor.toAlpha mask) d) = length d.
Proof.
  revert i d. induction n as [|n IH]; intros i d; simpl; [reflexivity|].
  rewrite IH. apply toAlpha_length.
Qed.

Lemma forFrom_toAlpha_lookup mask n k d j :
  forFrom n (4 * k) (Editor.toAlpha mask) d !! j
  = if decide ((4 * k <= j < 4 * (k + n))%nat /\ (j < length d)%nat)
    then Some (if above128 mask (4 * (j / 4)) then 255 else 0)
    else d !! j.
Proof.
  revert k d. induction n as [|n IH]; intros k d; cbn [forFrom].
  - case_decide; [lia | reflexivity].
  - replace (4 * k + 4)%nat with (4 * S k)%nat by lia.
    rewrite IH, toAlpha_length, toAlpha_lookup.
    repeat case_decide; try reflexivity; try lia.
    replace (j / 4)%nat with k; [reflexivity|].
    apply Nat.div_unique with (r := (j - 4 * k)%nat); lia.
Qed.


Lemma getImageData_length c :
  length (ImageData.data (Canvas.getImageData c))
  = (4 * (Canvas.width c * Canvas.height c))%nat.
Proof. simpl. rewrite flatten_length, length_resize. reflexivity. Qed.

Lemma row_major_index w h p :
  (p < w * h)%nat ->
  (p mod w < w)%nat /\ (p / w < h)%nat /\ (p / w * w + p mod w = p)%nat.
Proof.
  intros Hp. assert (w <> 0%nat) by lia.
  split; [apply Nat.mod_upper_bound; assumption|].
  split; [apply Nat.Div0.div_lt_upper_bound; lia|].
  pose proof (Nat.div_mod_eq p w). lia.
Qed.

Lemma channel_pixelAt d j :
  (j < length d)%nat ->
  Some (channel (j mod 4) (ImageData.pixelAt d (j / 4))) = d !! j.
Proof.
  intros Hj.
  pose proof (Nat.div_mod_eq j 4) as Hdm.
  pose proof (Nat.mod_upper_bound j 4 ltac:(lia)) as Hm.
  destruct (lookup_lt_is_Some_2 d j Hj) as [v Hv].
  unfold ImageData.pixelAt.
  destruct (j mod 4)%nat as [|[|[|[|r]]]] eqn:Hr; [| | | |lia]; cbn [channel red green blue alpha].
  - replace (4 * (j / 4))%nat with j by lia. rewrite Hv. reflexivity.
  - replace (4 * (j / 4) + 1)%nat with j by lia. rewrite Hv. reflexivity.
  - replace (4 * (j / 4) + 2)%nat with j by lia. rewrite Hv. reflexivity.
  - replace (4 * (j / 4) + 3)%nat with j by lia. rewrite Hv. reflexivity.
Qed.

(** Reading back what was just put on a canvas of the same size gives the
    same image data. *)
Lemma getImageData_putImageData (d : ImageData.t) (c : Canvas.t) :
  ImageData.width d = Canvas.width c ->
  ImageData.height d = Canvas.height c ->
  length (ImageData.data d) = (4 * (Canvas.width c * Canvas.height c))%nat ->
  Canvas.getImageData (Canvas.putImageData d c) = d.
Proof.
  destruct d as [w h data]. cbn [ImageData.width ImageData.height ImageData.data].
  intros -> -> Hlen. destruct c as [w h bitmap].
  unfold Canvas.getImageData, Canvas.putImageData, Canvas.blit.
  cbn [Canvas.width Canvas.height Canvas.bitmap ImageData.width ImageData.height ImageData.data] in *.
  f_equal.
  rewrite resize_all_alt by (rewrite length_imap, length_resize; reflexivity).
  apply list_eq. intros j.
  rewrite flatten_lookup, list_lookup_imap.
  destruct (decide (j < length data)%nat) as [Hj|Hj].
  - assert (Hp : (j / 4 < w * h)%nat) by (apply Nat.Div0.div_lt_upper_bound; lia).
    destruct (lookup_lt_is_Some_2 (resize (w * h) transparent bitmap) (j / 4))
      as [old Hold]; [rewrite length_resize; exact Hp|].
    rewrite Hold. cbn [fmap option_fmap option_map].
    destruct (row_major_index w h _ Hp) as (Hx & Hy & Hxy).
    apply Nat.ltb_lt in Hx, Hy. rewrite Hx, Hy. cbn [andb].
    rewrite Hxy. apply channel_pixelAt. exact Hj.
  - rewrite (lookup_ge_None_2 data) by lia.
    rewrite lookup_ge_None_2; [reflexivity|].
    rewrite length_resize.
    assert (w * h <= j / 4)%nat; [|lia].
    apply Nat.div_le_lower_bound; lia.
Qed.

Lemma alphaImageData_length m :
  length (ImageData.data (Editor.alphaImageData m))
  = (4 * (Canvas.width m * Canvas.height m))%nat.
Proof.
  unfold Editor.alphaImageData, forStride4. cbn [ImageData.data].
  rewrite forFrom_toAlpha_length. simpl. rewrite length_replicate. lia.
Qed.

(** Every element of the alpha mask is 255 or 0 according to the red
    element of its pixel in the mask data. *)
Lemma alphaImageData_lookup m j :
  (j < 4 * (Canvas.width m * Canvas.height m))%nat ->
  ImageData.data (Editor.alphaImageData m) !! j
  = Some (if above128 (ImageData.data (Canvas.getImageData m)) (4 * (j / 4))
          then 255 else 0).
Proof.
  intros Hj. unfold Editor.alphaImageData, forStride4.
  cbn [ImageData.data ImageData.width ImageData.height Canvas.createImageData].
  rewrite getImageData_length.
  replace ((4 * (Canvas.width m * Canvas.height m) + 3) / 4)%nat
    with (Canvas.width m * Canvas.height m)%nat
    by (apply Nat.div_unique with (r := 3%nat); lia).
  change 0%nat with (4 * 0)%nat at 1.
  rewrite forFrom_toAlpha_lookup, length_replicate.
  case_decide; [reflexivity | lia].
Qed.

Lemma maskData_red m p :
  (p < Canvas.width m * Canvas.height m)%nat ->
  exists px,
    resize (Canvas.width m * Canvas.height m) transparent (Canvas.bitmap m) !! p = Some px
    /\ ImageData.data (Canvas.getImageData m) !! (4 * p)%nat = Some (red px).
Proof.
  intros Hp.
  destruct (lookup_lt_is_Some_2
              (resize (Canvas.width m * Canvas.height m) transparent (Canvas.bitmap m)) p)
    as [px Hpx]; [rewrite length_resize; exact Hp|].
  exists px. split; [exact Hpx|].
  cbn [Canvas.getImageData ImageData.data]. rewrite flatten_lookup.
  replace (4 * p)%nat with (p * 4)%nat by lia.
  rewrite Nat.Div0.mod_mul, Nat.div_mul by lia.
  rewrite Hpx. reflexivity.
Qed.

(** What [generateMaskImage] leaves in [maskImage] when the canvas and the
    two contexts are there: the PNG of the alpha mask. *)
Lemma generateMaskImage_maskImage env s m :
  Editor.maskCanvasRef s = Some m ->
  context2d env = true ->
  Editor.generateMaskImage env s
  = Editor.setError ""
      (Editor.setMaskImage
         (Some (Encoded "image/png" None (Editor.alphaImageData m))) s).
Proof.
  intros Hm Hc. unfold Editor.generateMaskImage.
  rewrite Hm, Hc. cbn [negb].
  unfold toDataURL. rewrite getImageData_putImageData; [reflexivity | reflexivity | reflexivity |].
  rewrite alphaImageData_length. reflexivity.
Qed.

(** ** The Compressor *)

Lemma logged_fst e r : fst (Compressor.logged e r) = fst r.
Proof. reflexivity. Qed.

Lemma logged_snd e r : snd (Compressor.logged e r) = e :: snd r.
Proof. reflexivity. Qed.

Section CompressorFacts.
Context (env : Env) (file : File.t) (maxSizeKB : Z) (img : Image.t).

Lemma canRetry_true q d :
  Compressor.canRetry q d = true -> PrimFloat.ltb 0.1 q = true /\ 400 < d.
Proof.
  unfold Compressor.canRetry. intros H.
  apply andb_prop in H as [Hq Hd]. apply Z.ltb_lt in Hd. auto.
Qed.

(** The log of a run starts with the settings it was called with. *)
Lemma compress_log_head q d :
  snd (Compressor.compressWithSettings env file maxSizeKB img q d) = []
  \/ exists rest,
       snd (Compressor.compressWithSettings env file maxSizeKB img q d)
       = Compressor.ToBlob q d :: rest.
Proof.
  funelim (Compressor.compressWithSettings env file maxSizeKB img q d);
    cbn;
    try (left; reflexivity); try (right; eexists; reflexivity).
Qed.

(** The number of attempts is bounded by the distance of the dimension
    from its floor. *)
Lemma compress_log_length q d :
  (length (snd (Compressor.compressWithSettings env file maxSizeKB img q d))
   <= 1 + Z.to_nat ((d - 201) / 200))%nat.
Proof.
  funelim (Compressor.compressWithSettings env file maxSizeKB img q d);
    cbn [snd length Compressor.logged];
    try lia.
  pose proof (canRetry_true _ _ Hretry) as [_ Hd].
  match goal with IH : (length _ <= _)%nat |- _ => revert IH end.
  cbv zeta.
  generalize (length (snd (Compressor.compressWithSettings env file maxSizeKB img
     (JS.fmax 0.1 (PrimFloat.sub targetQuality 0.2)) (Z.max 400 (targetDimension - 200))))).
  intros n Hn.
  assert ((Z.max 400 (targetDimension - 200) - 201) / 200 + 1
          <= (targetDimension - 201) / 200).
  { destruct (Z.max_spec 400 (targetDimension - 200)) as [[? ->]|[? ->]].
    - replace (targetDimension - 201) with (targetDimension - 200 - 201 + 1 * 200) by lia.
      rewrite Z.div_add by lia. lia.
    - change ((400 - 201) / 200) with 0.
      assert (1 <= (targetDimension - 201) / 200); [|lia].
      apply Z.div_le_lower_bound; lia. }
  assert (0 <= (Z.max 400 (targetDimension - 200) - 201) / 200).
  { apply Z.div_pos; lia. }
  lia.
Qed.

Lemma compress_log_chained q d :
  chained (snd (Compressor.compressWithSettings env file maxSizeKB img q d)).
Proof.
  funelim (Compressor.compressWithSettings env file maxSizeKB img q d);
    cbn [snd Compressor.logged chained];
    try exact I.
  cbv zeta.
  match goal with IH : chained _ |- _ => revert IH end.
  destruct (compress_log_head (JS.fmax 0.1 (PrimFloat.sub targetQuality 0.2))
              (Z.max 400 (targetDimension - 200))) as [-> | [rest ->]]; intros IH.
  - exact I.
  - pose proof (canRetry_true _ _ Hretry) as [Hq Hd]. auto.
Qed.

Lemma lastAttempt_cons e log :
  log <> [] -> lastAttempt (e :: log) = lastAttempt log.
Proof.
  unfold lastAttempt. destruct log as [|e' log]; [congruence|]. reflexivity.
Qed.

(** What a run resolves with: the original file, or the encoding made by
    the last attempt, which is over budget only at a floor. *)
Lemma compress_result q d :
  fst (Compressor.compressWithSettings env file maxSizeKB img q d) = file
  \/ exists q' d' blob,
       lastAttempt (snd (Compressor.compressWithSettings env file maxSizeKB img q d))
       = Some (q', d')
       /\ toBlob env (Compressor.scratch env img d') "image/jpeg" (Some q') = Some blob
       /\ fst (Compressor.compressWithSettings env file maxSizeKB img q d)
          = Compressor.compressedFile env file blob
       /\ (Compressor.tooLarge maxSizeKB
             (fst (Compressor.compressWithSettings env file maxSizeKB img q d)) = true ->
           Compressor.canRetry q' d' = false).
Proof.
  funelim (Compressor.compressWithSettings env file maxSizeKB img q d);
    cbn [fst snd Compressor.logged];
    try (left; reflexivity).
  - right. exists targetQuality, targetDimension, blob.
    repeat split; try assumption; try reflexivity. congruence.
  - cbv zeta.
    match goal with IH : _ \/ _ |- _ =>
      destruct IH as [Hsame | (q' & d' & b & Hl & Hb & Hf & Hfloor)] end.
    + left. exact Hsame.
    + right. exists q', d', b. rewrite lastAttempt_cons.
      * auto.
      * intros Hnil. rewrite Hnil in Hl. discriminate.
  - right. exists targetQuality, targetDimension, blob.
    repeat split; try assumption; try reflexivity. intros _. assumption.
Qed.

(** With a drawing context, a run ends on an attempt, and that attempt
    decides the result: its encoding when the encoder delivered one, which
    is still over budget only at a floor, and the original file when the
    encoder gave nothing. *)
Lemma compress_last_attempt q d :
  context2d env = true ->
  exists q' d',
    lastAttempt (snd (Compressor.compressWithSettings env file maxSizeKB img q d))
    = Some (q', d')
    /\ match toBlob env (Compressor.scratch env img d') "image/jpeg" (Some q') with
       | Some blob =>
           fst (Compressor.compressWithSettings env file maxSizeKB img q d)
           = Compressor.compressedFile env file blob
           /\ (Compressor.tooLarge maxSizeKB (Compressor.compressedFile env file blob) = true ->
               Compressor.canRetry q' d' = false)
       | None => fst (Compressor.compressWithSettings env file maxSizeKB img q d) = file
       end.
Proof.
  funelim (Compressor.compressWithSettings env file maxSizeKB img q d);
    cbn [fst snd Compressor.logged]; intros Hctx; try congruence;
    try (exists targetQuality, targetDimension; split; [reflexivity|];
         match goal with H : toBlob _ _ _ _ = _ |- _ => rewrite H end).
  - reflexivity.
  - split; [reflexivity|]. congruence.
  - cbv zeta.
    match goal with IH : _ -> exists _, _ |- _ =>
      destruct (IH Hctx) as (q' & d' & Hl & Hres) end.
    exists q', d'. split; [|exact Hres].
    rewrite lastAttempt_cons; [exact Hl|].
    intros Hnil. rewrite Hnil in Hl. discriminate.
  - split; [reflexivity|]. intros _. assumption.
Qed.


End CompressorFacts.




Lemma toBlob_None env c mime quality :
  toBlob env c mime quality = None <->
  encodedSize env mime quality (Canvas.getImageData c) = None.
Proof.
  unfold toBlob. destruct (encodedSize env mime quality (Canvas.getImageData c));
    split; congruence.
Qed.

(** Whatever the browser does, a run resolves with the original file or
    with a JPEG file of the same name. *)
Lemma compressWithSettings_file env file maxSizeKB img q d :
  fst (Compressor.compressWithSettings env file maxSizeKB img q d) = file
  \/ (File.type (fst (Compressor.compressWithSettings env file maxSizeKB img q d))
      = "image/jpeg"
      /\ File.name (fst (Compressor.compressWithSettings env file maxSizeKB img q d))
         = File.name file
      /\ File.lastModified (fst (Compressor.compressWithSettings env file maxSizeKB img q d))
         = now env).
Proof.
  destruct (compress_result env file maxSizeKB img q d)
    as [H | (q' & d' & blob & _ & _ & -> & _)]; [left; exact H|].
  right. repeat split.
Qed.

(** C3, counterexample. A file of 4,050,000 bytes exceeds 4,000,000 bytes
    and is returned as it is, with nothing asked of the browser. *)
Lemma compressor_budget_counterexample :
  4000000 < File.size Sample.border
  /\ Compressor.compressImage Sample.env Sample.border 4000 = (Sample.border, []).
Proof. split; [reflexivity | vm_compute; reflexivity]. Qed.

(** C3, amended. The byte budget of the Compressor is 4,096,000 bytes
    (4000 times 1024): a file of at most that size is returned unchanged
    with nothing asked of the browser, and for a larger file the
    Compressor starts by loading it as an image in order to re-encode it. *)
Theorem compressor_budget (env : Env) (file : File.t) :
  (File.size file <= 4096000
   /\ Compressor.compressImage env file 4000 = (file, []))
  \/ (4096000 < File.size file
      /\ exists f rest,
           Compressor.compressImage env file 4000 = (f, Compressor.LoadImage :: rest)).
Proof.
  unfold Compressor.compressImage. change (4000 * 1024) with 4096000.
  destruct (Z.leb_spec (File.size file) 4096000) as [Hle | Hgt].
  - left. split; [exact Hle | reflexivity].
  - right. split; [exact Hgt|].
    destruct (loadImage env file) as [img|]; [|eexists _, _; reflexivity].
    eexists _, _. unfold Compressor.logged. reflexivity.
Qed.

(** C10. When the Compressor re-encodes (the file is over the threshold,
    it loads as an image, the scratch canvas has a context and the encoder
    delivers a blob for the last attempt of the run), the file returned is
    made from that blob: it has type image/jpeg and the name of the
    original, whatever the type of the original. Nothing is asked of the
    encoder on rasters the run does not attempt. *)
Theorem reencoded_file_is_jpeg (env : Env) (file : File.t) (maxSizeKB : Z)
    (img : Image.t) (q : float) (d : Z) (blob : Blob.t) :
  maxSizeKB * 1024 < File.size file ->
  loadImage env file = Some img ->
  context2d env = true ->
  lastAttempt (snd (Compressor.compressImage env file maxSizeKB)) = Some (q, d) ->
  toBlob env (Compressor.scratch env img d) "image/jpeg" (Some q) = Some blob ->
  fst (Compressor.compressImage env file maxSizeKB)
  = File.ofBlob blob (File.name file) "image/jpeg" (now env)
  /\ File.type (fst (Compressor.compressImage env file maxSizeKB)) = "image/jpeg"
  /\ File.name (fst (Compressor.compressImage env file maxSizeKB)) = File.name file.
Proof.
  intros Hsize Himg Hctx. unfold Compressor.compressImage.
  destruct (Z.leb_spec (File.size file) (maxSizeKB * 1024)) as [Hle|_]; [lia|].
  rewrite Himg. rewrite logged_fst, logged_snd.
  destruct (compress_last_attempt env file maxSizeKB img
              (if 10 * 1024 * 1024 <? File.size file then 0.3%float else 0.7%float)
              (if 10 * 1024 * 1024 <? File.size file then 800 else 1200) Hctx)
    as (q' & d' & Hl & Hres).
  rewrite lastAttempt_cons by (intros Hnil; rewrite Hnil in Hl; discriminate).
  rewrite Hl. intros Hlast Hblob. injection Hlast as -> ->.
  rewrite Hblob in Hres. destruct Hres as [-> _].
  repeat split.
Qed.

(** A PNG of six million bytes comes back as a JPEG called photo.png,
    made from the blob of the third and last attempt. *)
Lemma reencoded_file_is_jpeg_witness :
  File.type Sample.photo = "image/png"
  /\ fst (Compressor.compressImage Sample.env Sample.photo 4000)
     = File.ofBlob
         (Blob.mk 3000000 "image/jpeg"
            (Encoded "image/jpeg" (Some (PrimFloat.sub (PrimFloat.sub 0.7 0.2) 0.2))
               (ImageData.mk 2 1 [10; 20; 30; 255; 200; 100; 50; 255])))
         "photo.png" "image/jpeg" 1700000000000
  /\ File.type (fst (Compressor.compressImage Sample.env Sample.photo 4000)) = "image/jpeg"
  /\ File.name (fst (Compressor.compressImage Sample.env Sample.photo 4000)) = "photo.png".
Proof.
  split; [reflexivity|].
  apply (reencoded_file_is_jpeg Sample.env Sample.photo 4000 Sample.picture
           (PrimFloat.sub (PrimFloat.sub 0.7 0.2) 0.2) 800).
  - reflexivity.
  - reflexivity.
  - reflexivity.
  - vm_compute. reflexivity.
  - vm_compute. reflexivity.
Defined.

(** With an encoder that never gets under budget the Compressor goes down
    the whole schedule and resolves with its last encoding, at quality 0.1
    and dimension 600, still over budget. *)
Example compressImage_best_effort :
  Compressor.compressImage Sample.stubborn Sample.photo 4000
  = (File.mk "photo.png" 5000000 "image/jpeg" 1700000000000
       (Encoded "image/jpeg" (Some 0.1%float)
          (ImageData.mk 2 1 [10; 20; 30; 255; 200; 100; 50; 255])),
     [Compressor.LoadImage;
      Compressor.ToBlob 0.7 1200;
      Compressor.ToBlob (PrimFloat.sub 0.7 0.2) 1000;
      Compressor.ToBlob (PrimFloat.sub (PrimFloat.sub 0.7 0.2) 0.2) 800;
      Compressor.ToBlob 0.1 600]).
Proof. vm_compute. reflexivity. Qed.

(** ** The Mask Exporter *)

(** C2. For every pixel [p] of the mask canvas, the alpha mask that
    [generateMaskImage] produces has the four elements of [p] at 255 when
    the red element of [p] in the mask data is above 128, and at 0
    otherwise; in particular its alpha element is 255 exactly when that
    red element is above 128. *)
Theorem alpha_mask_binary_rule (env : Env) (s : Editor.State) (m : Canvas.t)
    (p : nat) :
  Editor.maskCanvasRef s = Some m ->
  context2d env = true ->
  (p < Canvas.width m * Canvas.height m)%nat ->
  exists out r,
    Editor.maskImage (Editor.generateMaskImage env s)
    = Some (Encoded "image/png" None out)
    /\ ImageData.width out = Canvas.width m
    /\ ImageData.height out = Canvas.height m
    /\ ImageData.data (Canvas.getImageData m) !! (4 * p)%nat = Some r
    /\ (forall k, (k < 4)%nat ->
          ImageData.data out !! (4 * p + k)%nat = Some (if 128 <? r then 255 else 0))
    /\ (ImageData.data out !! (4 * p + 3)%nat = Some 255 <-> 128 < r).
Proof.
  intros Hm Hctx Hp.
  destruct (maskData_red m p Hp) as (px & _ & Hred).
  exists (Editor.alphaImageData m), (red px).
  rewrite (generateMaskImage_maskImage env s m Hm Hctx).
  assert (Hk : forall k, (k < 4)%nat ->
            ImageData.data (Editor.alphaImageData m) !! (4 * p + k)%nat
            = Some (if 128 <? red px then 255 else 0)).
  { intros k Hk. rewrite alphaImageData_lookup by lia.
    replace ((4 * p + k) / 4)%nat with p
      by (apply Nat.div_unique with (r := k); lia).
    unfold above128. rewrite Hred. reflexivity. }
  repeat split; try reflexivity; try assumption.
  - rewrite Hk by lia. destruct (Z.ltb_spec 128 (red px)); [lia | discriminate].
  - intros Hw. rewrite Hk by lia. apply Z.ltb_lt in Hw. rewrite Hw. reflexivity.
Qed.

(** On the canvases set up for the sample picture, after a stroke on the
    left pixel. *)
Lemma alpha_mask_binary_rule_witness :
  exists out r,
    Editor.maskImage
      (Editor.generateMaskImage Sample.env
         (Editor.startDrawing Sample.env (Editor.MouseEvent 0.5 0.5) Sample.ready))
    = Some (Encoded "image/png" None out)
    /\ ImageData.width out = 2%nat
    /\ ImageData.height out = 1%nat
    /\ [255; 255; 255; 255; 255; 255; 255; 255] !! (4 * 0)%nat = Some r
    /\ (forall k, (k < 4)%nat ->
          ImageData.data out !! (4 * 0 + k)%nat = Some (if 128 <? r then 255 else 0))
    /\ (ImageData.data out !! (4 * 0 + 3)%nat = Some 255 <-> 128 < r).
Proof.
  apply (alpha_mask_binary_rule Sample.env
           (Editor.startDrawing Sample.env (Editor.MouseEvent 0.5 0.5) Sample.ready)
           (Canvas.mk 2 1 [white; white]) 0%nat).
  - vm_compute. reflexivity.
  - reflexivity.
  - simpl. lia.
Defined.

(** ** Canvas operations *)

Lemma fillRect_full colour c :
  Canvas.fillRect colour (Canvas.width c) (Canvas.height c) c
  = Canvas.mk (Canvas.width c) (Canvas.height c)
      (replicate (Canvas.width c * Canvas.height c) colour).
Proof.
  unfold Canvas.fillRect. f_equal. apply list_eq. intros p.
  rewrite list_lookup_imap.
  destruct (decide (p < Canvas.width c * Canvas.height c)%nat) as [Hp|Hp].
  - destruct (lookup_lt_is_Some_2
                (resize (Canvas.width c * Canvas.height c) transparent (Canvas.bitmap c)) p)
      as [old Hold]; [rewrite length_resize; exact Hp|].
    rewrite Hold, lookup_replicate_2 by exact Hp. cbn [fmap option_fmap option_map].
    destruct (row_major_index _ _ _ Hp) as (Hx & Hy & _).
    apply Nat.ltb_lt in Hx, Hy. rewrite Hx, Hy. reflexivity.
  - rewrite !lookup_ge_None_2; [reflexivity | rewrite length_replicate; lia
                                | rewrite length_resize; lia].
Qed.

Lemma whiteAt_spec c p :
  whiteAt c p
  = match resize (Canvas.width c * Canvas.height c) transparent (Canvas.bitmap c) !! p with
    | Some px => 128 <? red px
    | None => false
    end.
Proof.
  unfold whiteAt, above128. cbn [Canvas.getImageData ImageData.data].
  rewrite flatten_lookup.
  replace (4 * p)%nat with (p * 4)%nat by lia.
  rewrite Nat.Div0.mod_mul, Nat.div_mul by lia.
  destruct (resize _ _ _ !! p); reflexivity.
Qed.

Lemma fillWhite_lookup cov c p :
  resize (Canvas.width c * Canvas.height c) transparent
    (Canvas.bitmap (Canvas.fillWhite cov c)) !! p
  = Canvas.paintWhite (cov p)
    <$> resize (Canvas.width c * Canvas.height c) transparent (Canvas.bitmap c) !! p.
Proof.
  cbn [Canvas.fillWhite Canvas.bitmap].
  rewrite resize_all_alt by (rewrite length_imap, length_resize; reflexivity).
  rewrite (list_lookup_imap (fun q old => Canvas.paintWhite (cov q) old)).
  reflexivity.
Qed.

Lemma fresh_lookup p :
  (p < 300 * 150)%nat ->
  resize (Canvas.width Canvas.fresh * Canvas.height Canvas.fresh) transparent
    (Canvas.bitmap Canvas.fresh) !! p = Some transparent.
Proof.
  intros Hp. unfold Canvas.fresh. cbn [Canvas.width Canvas.height Canvas.bitmap].
  rewrite resize_all_alt by (symmetry; apply length_replicate).
  apply lookup_replicate_2. exact Hp.
Qed.

(** ** Clearing and exporting *)

Lemma render_mounted s i c m :
  Editor.image s = Some i ->
  Editor.canvasRef s = Some c ->
  Editor.maskCanvasRef s = Some m ->
  Editor.render s = s.
Proof.
  destruct s. cbn. intros -> -> ->. reflexivity.
Qed.

Lemma clearMask_mask env s original canvas maskCanvas :
  Editor.originalImageDataRef s = Some original ->
  Editor.canvasRef s = Some canvas ->
  Editor.maskCanvasRef s = Some maskCanvas ->
  context2d env = true ->
  Editor.clearMask env s
  = Editor.withCanvas (Some (Canvas.putImageData original canvas))
      (Editor.withMaskCanvas
         (Some (Canvas.mk (Canvas.width maskCanvas) (Canvas.height maskCanvas)
                  (replicate (Canvas.width maskCanvas * Canvas.height maskCanvas) black)))
         s).
Proof.
  intros Ho Hc Hm Hctx. unfold Editor.clearMask.
  rewrite Ho, Hc, Hm, Hctx. cbn [andb]. rewrite fillRect_full. reflexivity.
Qed.

Lemma step_clearMask_unset env s i c m :
  Editor.originalImageDataRef s = None ->
  Editor.image s = Some i ->
  Editor.canvasRef s = Some c ->
  Editor.maskCanvasRef s = Some m ->
  Editor.step env s Editor.ClearMask = s.
Proof.
  intros Ho Hi Hc Hm. unfold Editor.step, Editor.handle, Editor.clearMask.
  rewrite Ho. exact (render_mounted _ _ _ _ Hi Hc Hm).
Qed.

Lemma exported_generate env s i c m :
  Editor.image s = Some i ->
  Editor.canvasRef s = Some c ->
  Editor.maskCanvasRef s = Some m ->
  context2d env = true ->
  exported (Editor.step env s Editor.GenerateMask) = Some (Editor.alphaImageData m).
Proof.
  intros Hi Hc Hm Hctx. unfold Editor.step, Editor.handle.
  rewrite (generateMaskImage_maskImage env s m Hm Hctx).
  rewrite (render_mounted _ i c m); [reflexivity | exact Hi | exact Hc | exact Hm].
Qed.

(** The alpha mask of an all-black mask canvas is all zero. *)
Lemma alphaImageData_black w h :
  Editor.alphaImageData (Canvas.mk w h (replicate (w * h) black))
  = ImageData.mk w h (replicate (4 * (w * h)) 0).
Proof.
  set (m := Canvas.mk w h (replicate (w * h) black)).
  assert (Hdata : ImageData.data (Editor.alphaImageData m) = replicate (4 * (w * h)) 0).
  { apply list_eq. intros j.
    destruct (decide (j < 4 * (w * h))%nat) as [Hj|Hj].
    - rewrite (alphaImageData_lookup m j Hj), lookup_replicate_2 by exact Hj.
      assert (Hp : (j / 4 < Canvas.width m * Canvas.height m)%nat)
        by (apply Nat.Div0.div_lt_upper_bound; exact Hj).
      fold (whiteAt m (j / 4)). rewrite whiteAt_spec.
      cbn [m Canvas.width Canvas.height Canvas.bitmap].
      rewrite resize_all_alt by (rewrite length_replicate; reflexivity).
      rewrite lookup_replicate_2 by exact Hp. reflexivity.
    - rewrite !lookup_ge_None_2; [reflexivity | rewrite length_replicate; lia
                                  | rewrite alphaImageData_length; cbn; lia]. }
  unfold Editor.alphaImageData in *. cbn [ImageData.data] in Hdata.
  rewrite Hdata. reflexivity.
Qed.

(** A white pixel of the mask canvas is opaque in the alpha mask. *)
Lemma alphaImageData_white m p :
  (p < Canvas.width m * Canvas.height m)%nat ->
  whiteAt m p = true ->
  ImageData.data (Editor.alphaImageData m) !! (4 * p + 3)%nat = Some 255.
Proof.
  intros Hp Hw. rewrite alphaImageData_lookup by lia.
  replace ((4 * p + 3) / 4)%nat with p by (apply Nat.div_unique with (r := 3%nat); lia).
  fold (whiteAt m p). rewrite Hw. reflexivity.
Qed.

Lemma whiteAt_fillWhite cov c p old :
  resize (Canvas.width c * Canvas.height c) transparent (Canvas.bitmap c) !! p = Some old ->
  whiteAt (Canvas.fillWhite cov c) p = (128 <? red (Canvas.paintWhite (cov p) old)).
Proof.
  intros Hold. rewrite whiteAt_spec.
  change (Canvas.width (Canvas.fillWhite cov c)) with (Canvas.width c).
  change (Canvas.height (Canvas.fillWhite cov c)) with (Canvas.height c).
  rewrite fillWhite_lookup, Hold. reflexivity.
Qed.

Lemma scribbled_state :
  Editor.originalImageDataRef Sample.scribbled = None
  /\ Editor.image Sample.scribbled = Some Sample.picture
  /\ Editor.canvasRef Sample.scribbled = Some Canvas.fresh
  /\ Editor.maskCanvasRef Sample.scribbled
     = Some (Canvas.fillWhite (Sample.disc 5 5 10 300 150) Canvas.fresh).
Proof. repeat split. Qed.

Lemma scribbled_white :
  whiteAt (Canvas.fillWhite (Sample.disc 5 5 10 300 150) Canvas.fresh) 0 = true.
Proof.
  rewrite (whiteAt_fillWhite _ Canvas.fresh 0 transparent).
  - vm_compute. reflexivity.
  - apply fresh_lookup. lia.
Qed.

(** C9, counterexample. After a first upload the canvases are mounted but
    the original image data was never taken; a stroke then paints the mask
    canvas, [clearMask] returns at its first guard, and the exported alpha
    mask is opaque at the painted pixel 0. *)
Lemma clear_then_export_counterexample :
  Editor.originalImageDataRef Sample.scribbled = None
  /\ exists out,
       exported (Editor.run Sample.env Sample.scribbled
                   [Editor.ClearMask; Editor.GenerateMask]) = Some out
       /\ ImageData.data out !! 3%nat = Some 255.
Proof.
  destruct scribbled_state as (Ho & Hi & Hc & Hm).
  split; [exact Ho|].
  exists (Editor.alphaImageData
            (Canvas.fillWhite (Sample.disc 5 5 10 300 150) Canvas.fresh)).
  split.
  - cbn [Editor.run fold_left].
    rewrite (step_clearMask_unset Sample.env _ _ _ _ Ho Hi Hc Hm).
    exact (exported_generate Sample.env _ _ _ _ Hi Hc Hm eq_refl).
  - apply (alphaImageData_white _ 0%nat).
    + change (0 < 300 * 150)%nat. lia.
    + exact scribbled_white.
Qed.

(** C9, amended. In every state in which the original image data has
    been taken and both canvases and their contexts are there,
    [clearMask()] followed by [generateMaskImage()] yields an alpha mask of
    the size of the mask canvas in which every element is 0. *)
Theorem clear_then_export_is_transparent (env : Env) (s : Editor.State)
    (original : ImageData.t) (canvas maskCanvas : Canvas.t) :
  Editor.originalImageDataRef s = Some original ->
  Editor.canvasRef s = Some canvas ->
  Editor.maskCanvasRef s = Some maskCanvas ->
  context2d env = true ->
  exported (Editor.generateMaskImage env (Editor.clearMask env s))
  = Some (ImageData.mk (Canvas.width maskCanvas) (Canvas.height maskCanvas)
            (replicate (4 * (Canvas.width maskCanvas * Canvas.height maskCanvas)) 0)).
Proof.
  intros Ho Hc Hm Hctx.
  rewrite (clearMask_mask env s original canvas maskCanvas Ho Hc Hm Hctx).
  rewrite (generateMaskImage_maskImage env _
             (Canvas.mk (Canvas.width maskCanvas) (Canvas.height maskCanvas)
                (replicate (Canvas.width maskCanvas * Canvas.height maskCanvas) black)));
    [|reflexivity|exact Hctx].
  unfold exported. cbn [Editor.maskImage Editor.setError Editor.setMaskImage].
  rewrite alphaImageData_black. reflexivity.
Qed.

(** After a stroke over both pixels of the sample picture. *)
Lemma clear_then_export_is_transparent_witness :
  whitePixels (Canvas.mk 2 1 [white; white]) = 2%nat
  /\ exported
       (Editor.generateMaskImage Sample.env
          (Editor.clearMask Sample.env
             (Editor.startDrawing Sample.env (Editor.MouseEvent 0.5 0.5) Sample.ready)))
     = Some (ImageData.mk 2 1 (replicate (4 * (2 * 1)) 0)).
Proof.
  split; [reflexivity|].
  apply (clear_then_export_is_transparent Sample.env
           (Editor.startDrawing Sample.env (Editor.MouseEvent 0.5 0.5) Sample.ready)
           (ImageData.mk 2 1 [10; 20; 30; 255; 200; 100; 50; 255])
           (Canvas.mk 2 1 [RGBA 110 0 0 255; RGBA 255 50 0 255])
           (Canvas.mk 2 1 [white; white])).
  - vm_compute. reflexivity.
  - vm_compute. reflexivity.
  - vm_compute. reflexivity.
  - reflexivity.
Defined.
(** ** The checks of the edit-image route *)

(** What the [try] block does with a form that passes the checks. *)
Lemma attempt_acceptable api clock form :
  acceptable form = true ->
  exists imageFile maskFile prompt,
    Gateway.image form = Some (Gateway.FileField imageFile)
    /\ Gateway.mask form = Some (Gateway.FileField maskFile)
    /\ Gateway.prompt form = Some (Gateway.TextField prompt)
    /\ Gateway.attempt api clock form
       = Gateway.edit api (callFor clock imageFile maskFile prompt).
Proof.
  unfold acceptable, Gateway.attempt.
  destruct (Gateway.image form) as [[?|imageFile]|]; try discriminate.
  destruct (Gateway.mask form) as [[?|maskFile]|]; try discriminate.
  destruct (Gateway.prompt form) as [[prompt|?]|]; try discriminate.
  intros H.
  apply andb_prop in H as [H Htrim]. apply andb_prop in H as [H Hmask].
  apply andb_prop in H as [H Himage]. apply andb_prop in H as [Hsi Hsm].
  exists imageFile, maskFile, prompt. repeat split.
  assert (Hp : JS.truthy prompt = true).
  { destruct prompt; [discriminate Htrim | reflexivity]. }
  cbn [Gateway.truthy Gateway.sizeOf Gateway.exceeds Gateway.isValidImageFile
       Gateway.fileToBuffer negb orb].
  rewrite Hp, Himage, Hmask. cbn [negb].
  apply Z.leb_le in Hsi, Hsm.
  destruct (Z.ltb_spec Gateway.maxSize (File.size imageFile)); [lia|].
  destruct (Z.ltb_spec Gateway.maxSize (File.size maskFile)); [lia|].
  destruct (JS.trim prompt); [discriminate Htrim|]. reflexivity.
Qed.


(** What it does with a form in which a text stands for a file. *)
Lemma attempt_mistyped api clock form :
  mistyped form = true ->
  Gateway.attempt api clock form
  = (inr (Gateway.typeError
            "Cannot read properties of undefined (reading 'startsWith')"), []).
Proof.
  unfold mistyped, Gateway.attempt.
  destruct (Gateway.image form) as [imageFile|]; [|discriminate].
  destruct (Gateway.mask form) as [maskFile|]; [|discriminate].
  destruct (Gateway.prompt form) as [prompt|]; [|discriminate].
  intros H. apply andb_prop in H as [-> H].
  destruct imageFile as [image|image], maskFile as [mask|mask];
    cbn [Gateway.truthy Gateway.sizeOf Gateway.exceeds Gateway.isValidImageFile];
    try discriminate;
    repeat (apply andb_prop in H as [H ?]);
    repeat match goal with
           | E : (_ <=? _) = true |- _ => apply Z.leb_le in E
           | E : _ = true |- _ => rewrite E
           end;
    cbn [negb orb];
    repeat match goal with
           | |- context [Gateway.maxSize <? ?v] =>
               destruct (Z.ltb_spec Gateway.maxSize v); [lia|]
           end;
    reflexivity.
Qed.

(** Every other form is turned down with status 400. *)
Lemma attempt_refused api clock form :
  acceptable form = false ->
  mistyped form = false ->
  exists error,
    Gateway.attempt api clock form
    = (inl {| Gateway.body := Gateway.Failure error; Gateway.status := 400 |}, []).
Proof.
  unfold acceptable, mistyped, Gateway.attempt, Gateway.failure.
  destruct (Gateway.image form) as [imageFile|]; [|intros _ _; eexists; reflexivity].
  destruct (Gateway.mask form) as [maskFile|]; [|intros _ _; eexists; reflexivity].
  destruct (Gateway.prompt form) as [prompt|]; [|intros _ _; eexists; reflexivity].
  destruct (Gateway.truthy imageFile) eqn:Hi; [|intros _ _; eexists; reflexivity].
  destruct (Gateway.truthy maskFile) eqn:Hm; [|intros _ _; eexists; reflexivity].
  destruct (Gateway.truthy prompt) eqn:Hp; [|intros _ _; eexists; reflexivity].
  cbn [negb orb andb].
  destruct imageFile as [image|image], maskFile as [mask|mask];
    cbn [Gateway.truthy Gateway.sizeOf Gateway.exceeds Gateway.isValidImageFile
         Gateway.fileToBuffer] in *;
    rewrite ?Hi, ?Hm; cbn [andb];
    repeat match goal with
           | |- context [Gateway.maxSize <? ?v] =>
               destruct (Z.ltb_spec Gateway.maxSize v); [intros _ _; eexists; reflexivity|]
           | |- context [?v <=? Gateway.maxSize] =>
               destruct (Z.leb_spec v Gateway.maxSize); [|lia]
           end;
    cbn [andb];
    repeat match goal with
           | |- context [JS.startsWith ?a ?b] =>
               destruct (JS.startsWith a b); [|intros _ _; eexists; reflexivity]
           end;
    cbn [andb]; try discriminate.
  destruct prompt as [prompt|?]; [|intros _ _; eexists; reflexivity].
  destruct (JS.trim prompt); [intros _ _; eexists; reflexivity|].
  discriminate.
Qed.

(** No form is both. *)
Lemma mistyped_not_acceptable form : mistyped form = true -> acceptable form = false.
Proof.
  unfold mistyped, acceptable.
  destruct (Gateway.image form) as [[?|?]|], (Gateway.mask form) as [[?|?]|],
    (Gateway.prompt form) as [[?|?]|]; try reflexivity.
  rewrite andb_false_r. discriminate.
Qed.


(** ** Submission *)



Example trim_strips_both_ends :
  JS.trim (JS.codeUnits "  add a pond ") = JS.codeUnits "add a pond".
Proof. reflexivity. Qed.

(** What [handleSubmit] passes to [fetch] when it gets that far: the
    stored file, the PNG of the mask canvas as it is, and the prompt as
    typed. *)
Lemma handleSubmit_request env s file m n :
  Editor.originalFile s = Some file ->
  JS.trim (Editor.prompt s) <> [] ->
  Editor.maskCanvasRef s = Some m ->
  encodedSize env "image/png" None (Canvas.getImageData m) = Some n ->
  Editor.requests (Editor.handleSubmit env s)
  = {| formImage := file;
       formMask := Blob.mk n "image/png"
                     (Encoded "image/png" None (Canvas.getImageData m));
       formPrompt := Editor.prompt s |} :: Editor.requests s.
Proof.
  intros Hf Hp Hm Hn. unfold Editor.handleSubmit. rewrite Hf.
  destruct (JS.trim (Editor.prompt s)) as [|c t] eqn:Ht; [congruence|].
  cbn [JS.truthy]. unfold Editor.submitted.
  cbn [Editor.maskCanvasRef Editor.setError Editor.setIsLoading Editor.prompt].
  rewrite Hm. unfold toBlob. rewrite Hn.
  destruct (fetch env _) as [isError message | status [result | isError message]];
    [| destruct (Editor.ok status);
       [destruct (success result), (Editor.truthyString (editedImageUrl result))|]
     | destruct (Editor.ok status)];
    reflexivity.
Qed.

(** C1. On the canvases set up for the sample picture, with no stroke and
    the prompt "add a pond", the mask that [handleSubmit] sends is the
    mask canvas itself, opaque black on both pixels, while the alpha mask
    that [generateMaskImage] produces from the same canvas is transparent
    on both: the request does not carry the Mask Exporter's output. *)
Theorem submitted_mask_is_raw_mask :
  submittedMask (Editor.handleSubmit Sample.env Sample.ready)
  = Some (ImageData.mk 2 1 [0; 0; 0; 255; 0; 0; 0; 255])
  /\ exported (Editor.generateMaskImage Sample.env Sample.ready)
     = Some (ImageData.mk 2 1 [0; 0; 0; 0; 0; 0; 0; 0])
  /\ submittedMask (Editor.handleSubmit Sample.env
                      (Editor.generateMaskImage Sample.env Sample.ready))
     <> exported (Editor.generateMaskImage Sample.env Sample.ready).
Proof.
  split; [vm_compute; reflexivity|].
  split; [vm_compute; reflexivity|].
  vm_compute. discriminate.
Qed.




(** ** Upload *)

Lemma compressImage_undecodable env file maxSizeKB :
  loadImage env file = None ->
  fst (Compressor.compressImage env file maxSizeKB) = file.
Proof.
  intros Hload. unfold Compressor.compressImage.
  destruct (File.size file <=? maxSizeKB * 1024); [reflexivity|].
  rewrite Hload. reflexivity.
Qed.

(** C5, counterexample. A zero-byte file that does not decode, and a
    five-million-byte file that does not decode: the Compressor resolves
    with each of them as it is, and the upload keeps the first as the file
    to submit. *)
Lemma upload_undecodable_counterexample :
  File.size Sample.empty = 0
  /\ loadImage Sample.env Sample.empty = None
  /\ Compressor.compressImage Sample.env Sample.empty 4000 = (Sample.empty, [])
  /\ loadImage Sample.env Sample.broken = None
  /\ Compressor.compressImage Sample.env Sample.broken 4000
     = (Sample.broken, [Compressor.LoadImage])
  /\ Editor.originalFile
       (Editor.handleImageUpload Sample.env (Some Sample.empty) Sample.ready)
     = Some Sample.empty.
Proof. repeat split; vm_compute; reflexivity. Qed.

(** C5, amended. For every file that does not load as an image (a
    zero-byte file is one), the Compressor does not fail: it resolves with
    the file itself. The upload handler then keeps that file as the file
    to submit and, once the file is read as a data URL, reports "Failed to
    load image. Please try another file."; it sets no image and leaves the
    canvases and the original image data as they were. *)
Theorem upload_undecodable_reports_load_error (env : Env) (s : Editor.State)
    (file : File.t) (url : string) :
  loadImage env file = None ->
  readAsDataURL env file = ReadLoad url ->
  url <> "" ->
  fst (Compressor.compressImage env file 4000) = file
  /\ Editor.error (Editor.handleImageUpload env (Some file) s)
     = "Failed to load image. Please try another file."
  /\ Editor.originalFile (Editor.handleImageUpload env (Some file) s) = Some file
  /\ Editor.image (Editor.handleImageUpload env (Some file) s) = Editor.image s
  /\ Editor.canvasRef (Editor.handleImageUpload env (Some file) s) = Editor.canvasRef s
  /\ Editor.maskCanvasRef (Editor.handleImageUpload env (Some file) s)
     = Editor.maskCanvasRef s
  /\ Editor.originalImageDataRef (Editor.handleImageUpload env (Some file) s)
     = Editor.originalImageDataRef s.
Proof.
  intros Hload Hread Hurl.
  pose proof (compressImage_undecodable env file 4000 Hload) as Hc.
  split; [exact Hc|].
  unfold Editor.handleImageUpload. rewrite Hc, Hread, Hload.
  destruct (String.eqb_spec url ""); [contradiction|].
  repeat split.
Qed.

Lemma upload_undecodable_reports_load_error_witness :
  fst (Compressor.compressImage Sample.env Sample.empty 4000) = Sample.empty
  /\ Editor.error (Editor.handleImageUpload Sample.env (Some Sample.empty) Sample.ready)
     = "Failed to load image. Please try another file."
  /\ Editor.originalFile (Editor.handleImageUpload Sample.env (Some Sample.empty) Sample.ready)
     = Some Sample.empty
  /\ Editor.image (Editor.handleImageUpload Sample.env (Some Sample.empty) Sample.ready)
     = Editor.image Sample.ready
  /\ Editor.canvasRef (Editor.handleImageUpload Sample.env (Some Sample.empty) Sample.ready)
     = Editor.canvasRef Sample.ready
  /\ Editor.maskCanvasRef (Editor.handleImageUpload Sample.env (Some Sample.empty) Sample.ready)
     = Editor.maskCanvasRef Sample.ready
  /\ Editor.originalImageDataRef
       (Editor.handleImageUpload Sample.env (Some Sample.empty) Sample.ready)
     = Editor.originalImageDataRef Sample.ready.
Proof.
  apply (upload_undecodable_reports_load_error Sample.env Sample.ready Sample.empty
           "data:image/png;base64,AAAA").
  - reflexivity.
  - reflexivity.
  - discriminate.
Defined.

(** ** What the handlers keep *)

(** Exposing the fields of a state and reducing the accessors, with the
    canvas operations left folded. *)
Ltac fields s :=
  destruct s;
  cbn -[forStride4 Canvas.putImageData Canvas.getImageData Canvas.fillRect
        Canvas.fillWhite Canvas.drawImage Canvas.clearRect Canvas.setWidth
        Canvas.setHeight Editor.alphaImageData Editor.alphaCanvasFor toBlob
        toDataURL JS.trim Compressor.compressImage String.eqb append pretty] in *.

Lemma updateCanvasWithMask_frame env s :
  frame (Editor.updateCanvasWithMask env s) = frame s
  /\ Editor.maskCanvasRef (Editor.updateCanvasWithMask env s) = Editor.maskCanvasRef s.
Proof.
  unfold Editor.updateCanvasWithMask, frame, maskSize. fields s.
  repeat case_match; split; reflexivity.
Qed.

Lemma drawMask_frame env x y s :
  frame (Editor.drawMask env x y s) = frame s.
Proof.
  unfold Editor.drawMask.
  destruct (Editor.maskCanvasRef s) as [m|] eqn:Hm; [|reflexivity].
  destruct (context2d env); [|reflexivity].
  rewrite (proj1 (updateCanvasWithMask_frame env _)).
  unfold frame, maskSize. cbn. rewrite Hm. reflexivity.
Qed.

Lemma submitted_frame env file s :
  frame (fst (Editor.submitted env file s)) = frame s.
Proof.
  unfold Editor.submitted, frame, maskSize. fields s.
  repeat case_match; reflexivity.
Qed.

Lemma handleSubmit_frame env s :
  frame (Editor.handleSubmit env s) = frame s.
Proof.
  unfold Editor.handleSubmit.
  destruct (Editor.originalFile s) as [file|]; [|reflexivity].
  destruct (JS.truthy (JS.trim (Editor.prompt s))); [|reflexivity].
  pose proof (submitted_frame env file
                (Editor.setError "" (Editor.setIsLoading true s))) as H.
  destruct (Editor.submitted env file _) as [s' [message|]]; exact H.
Qed.

Lemma clearMask_frame env s :
  frame (Editor.clearMask env s) = frame s.
Proof.
  unfold Editor.clearMask.
  destruct (Editor.originalImageDataRef s); [|reflexivity].
  destruct (Editor.canvasRef s); [|reflexivity].
  destruct (Editor.maskCanvasRef s) as [m|] eqn:Hm; [|reflexivity].
  destruct (context2d env); [|reflexivity].
  unfold frame, maskSize. cbn. rewrite Hm. reflexivity.
Qed.

Lemma generateMaskImage_frame env s :
  frame (Editor.generateMaskImage env s) = frame s.
Proof.
  unfold Editor.generateMaskImage, frame, maskSize. fields s.
  repeat case_match; reflexivity.
Qed.

(** No handler but the upload handler changes the image or the size of
    the mask canvas. *)
Lemma handle_frame env a s :
  isUpload a = false -> frame (Editor.handle env a s) = frame s.
Proof.
  destruct a; cbn [isUpload Editor.handle]; intros Ha; try discriminate.
  - unfold Editor.startDrawing. rewrite drawMask_frame. reflexivity.
  - unfold Editor.continueDrawing. destruct (Editor.isDrawing s); [|reflexivity].
    apply drawMask_frame.
  - reflexivity.
  - apply clearMask_frame.
  - apply generateMaskImage_frame.
  - unfold Editor.downloadMask. destruct (Editor.maskImage s); reflexivity.
  - apply handleSubmit_frame.
  - reflexivity.
  - reflexivity.
Qed.

Lemma render_frame s img size :
  frame s = (Some img, Some size) -> frame (Editor.render s) = frame s.
Proof.
  unfold frame, maskSize, Editor.render. fields s. intros [= -> Hm].
  destruct maskCanvasRef as [m|]; [|discriminate].
  destruct canvasRef; reflexivity.
Qed.

Lemma run_frame env actions s img size :
  Forall (fun a => isUpload a = false) actions ->
  frame s = (Some img, Some size) ->
  frame (Editor.run env s actions) = (Some img, Some size).
Proof.
  intros Hactions. revert s.
  induction Hactions as [|a actions Ha _ IH]; intros s Hs; [exact Hs|].
  cbn [Editor.run fold_left]. apply IH. unfold Editor.step.
  rewrite (render_frame _ img size); rewrite (handle_frame env a s Ha); exact Hs.
Qed.

(** An upload whose image loads, on mounted canvases with contexts, ends
    in [setupCanvas] running to its end. *)
Lemma upload_sets_up env s file url img canvas maskCanvas :
  Editor.canvasRef s = Some canvas ->
  Editor.maskCanvasRef s = Some maskCanvas ->
  context2d env = true ->
  readAsDataURL env (fst (Compressor.compressImage env file 4000)) = ReadLoad url ->
  url <> "" ->
  loadImage env (fst (Compressor.compressImage env file 4000)) = Some img ->
  frame (Editor.handleImageUpload env (Some file) s)
  = (Some img, Some (Image.width img, Image.height img)).
Proof.
  intros Hc Hm Hctx Hread Hurl Hload. unfold Editor.handleImageUpload.
  rewrite Hread, Hload. destruct (String.eqb_spec url ""); [contradiction|].
  unfold Editor.setupCanvas.
  cbn [Editor.canvasRef Editor.maskCanvasRef Editor.setImage Editor.setOriginalFile
       Editor.setMaskImage Editor.setEditedImage Editor.setError].
  rewrite Hc, Hm, Hctx. reflexivity.
Qed.

(** C7. After an upload that completes canvas setup (the canvases are
    mounted, contexts are available, the file is read and loads as an
    image), the mask canvas has the width and height of the image, and
    this still holds, for the same image, after any sequence of actions
    that contains no further upload. *)
Theorem mask_matches_image (env : Env) (s : Editor.State) (file : File.t)
    (url : string) (img : Image.t) (canvas maskCanvas : Canvas.t)
    (actions : list Editor.Action) :
  Editor.canvasRef s = Some canvas ->
  Editor.maskCanvasRef s = Some maskCanvas ->
  context2d env = true ->
  readAsDataURL env (fst (Compressor.compressImage env file 4000)) = ReadLoad url ->
  url <> "" ->
  loadImage env (fst (Compressor.compressImage env file 4000)) = Some img ->
  Forall (fun a => isUpload a = false) actions ->
  Editor.image
    (Editor.run env (Editor.step env s (Editor.Upload (Some file))) actions)
  = Some img
  /\ maskSize
       (Editor.run env (Editor.step env s (Editor.Upload (Some file))) actions)
     = Some (Image.width img, Image.height img).
Proof.
  intros Hc Hm Hctx Hread Hurl Hload Hactions.
  pose proof (upload_sets_up env s file url img canvas maskCanvas
                Hc Hm Hctx Hread Hurl Hload) as Hup.
  assert (Hstep : frame (Editor.step env s (Editor.Upload (Some file)))
                  = (Some img, Some (Image.width img, Image.height img))).
  { unfold Editor.step. cbn [Editor.handle].
    rewrite (render_frame _ img (Image.width img, Image.height img) Hup). exact Hup. }
  pose proof (run_frame env actions _ img _ Hactions Hstep) as Hrun.
  unfold frame in Hrun. injection Hrun as Hi Hsize. split; assumption.
Qed.

(** A second upload of the sample file, then a stroke, clearing, export
    and submission. *)
Lemma mask_matches_image_witness :
  Editor.image
    (Editor.run Sample.env
       (Editor.step Sample.env Sample.mounted (Editor.Upload (Some Sample.small)))
       [Editor.StartDrawing (Editor.MouseEvent 0.5 0.5); Editor.StopDrawing;
        Editor.ClearMask; Editor.GenerateMask; Editor.Submit])
  = Some Sample.picture
  /\ maskSize
       (Editor.run Sample.env
          (Editor.step Sample.env Sample.mounted (Editor.Upload (Some Sample.small)))
          [Editor.StartDrawing (Editor.MouseEvent 0.5 0.5); Editor.StopDrawing;
           Editor.ClearMask; Editor.GenerateMask; Editor.Submit])
     = Some (2%nat, 1%nat).
Proof.
  apply (mask_matches_image Sample.env Sample.mounted Sample.small
           "data:image/png;base64,AAAA" Sample.picture Canvas.fresh Canvas.fresh).
  - reflexivity.
  - reflexivity.
  - reflexivity.
  - reflexivity.
  - discriminate.
  - reflexivity.
  - repeat constructor.
Defined.

(** ** Painting *)

(** Compositing white over a pixel leaves a white pixel white. *)
Lemma nearest_ge k num den :
  0 < den -> k * den <= num -> k <= Canvas.nearest num den.
Proof.
  intros Hden Hle. unfold Canvas.nearest.
  apply Z.div_le_lower_bound; lia.
Qed.

Lemma nearest_mul v den : 0 < den -> Canvas.nearest (v * den) den = v.
Proof.
  intros Hden. unfold Canvas.nearest.
  symmetry. apply Z.div_unique with (r := den); lia.
Qed.

Lemma paintWhite_white a px :
  0 <= alpha px -> 128 < red px -> 128 < red (Canvas.paintWhite a px).
Proof.
  intros Ha Hr. unfold Canvas.paintWhite.
  pose proof (clamp8_range a) as Hc.
  destruct (Z.leb_spec (255 * clamp8 a + alpha px * (255 - clamp8 a)) 0) as [_|Hden];
    [exact Hr|].
  cbn [red].
  assert (129 <= Canvas.nearest
                   (255 * 255 * clamp8 a + red px * alpha px * (255 - clamp8 a))
                   (255 * clamp8 a + alpha px * (255 - clamp8 a))); [|lia].
  apply nearest_ge; [exact Hden|].
  assert (0 <= alpha px * (255 - clamp8 a)) by (apply Z.mul_nonneg_nonneg; lia).
  nia.
Qed.

Lemma filter_length_le {A} (f g : A -> bool) (l : list A) :
  (forall a, f a = true -> g a = true) ->
  (length (List.filter f l) <= length (List.filter g l))%nat.
Proof.
  intros Hfg. induction l as [|a l IH]; [reflexivity|].
  cbn [List.filter]. destruct (f a) eqn:Hf.
  - rewrite (Hfg a Hf). cbn [length]. lia.
  - destruct (g a); cbn [length]; lia.
Qed.

Lemma resize_alpha_nonneg n l :
  Forall (fun px => 0 <= alpha px) l ->
  Forall (fun px => 0 <= alpha px) (resize n transparent l).
Proof.
  intros Hl. apply Forall_lookup. intros i px Hi.
  destruct (decide (i < length l)%nat) as [Hlt|Hge].
  - assert (i < n)%nat.
    { apply lookup_lt_Some in Hi. rewrite length_resize in Hi. exact Hi. }
    rewrite lookup_resize in Hi by assumption.
    exact (proj1 (Forall_lookup _ l) Hl i px Hi).
  - assert (Hin : (i < n)%nat).
    { apply lookup_lt_Some in Hi. rewrite length_resize in Hi. exact Hi. }
    rewrite lookup_resize_new in Hi by lia. injection Hi as <-. reflexivity.
Qed.

(** Filling a disc with white on a canvas whose alpha elements are not
    negative leaves every white pixel white. *)
Lemma fillWhite_keeps_white cov c p :
  Forall (fun px => 0 <= alpha px) (Canvas.bitmap c) ->
  whiteAt c p = true -> whiteAt (Canvas.fillWhite cov c) p = true.
Proof.
  intros Hbytes. rewrite whiteAt_spec.
  destruct (resize (Canvas.width c * Canvas.height c) transparent (Canvas.bitmap c) !! p)
    as [old|] eqn:Hold; [|discriminate].
  intros Hw. rewrite (whiteAt_fillWhite cov c p old Hold).
  apply Z.ltb_lt. apply Z.ltb_lt in Hw.
  apply paintWhite_white; [|exact Hw].
  exact (proj1 (Forall_lookup _ _)
           (resize_alpha_nonneg (Canvas.width c * Canvas.height c) _ Hbytes) p old Hold).
Qed.

Lemma drawMask_mask env x y s m :
  Editor.maskCanvasRef s = Some m ->
  Editor.maskCanvasRef (Editor.drawMask env x y s)
  = Some (if context2d env
          then Canvas.fillWhite
                 (coverage env x y (PrimFloat.div (JS.ofZ (Editor.brushSize s)) 2)
                    (Canvas.width m) (Canvas.height m)) m
          else m).
Proof.
  intros Hm. unfold Editor.drawMask. rewrite Hm.
  destruct (context2d env); [|exact Hm].
  rewrite (proj2 (updateCanvasWithMask_frame env _)). reflexivity.
Qed.

(** C8. A stroke point never erases: for every stroke point, whatever its
    position (so in particular within the bounds of the mask canvas), the
    mask canvas after [drawMask] has every pixel white that was white
    before, and so at least as many white pixels. The mask canvas is taken
    to hold no negative alpha element, as every canvas does. *)
Theorem strokes_never_erase (env : Env) (s : Editor.State) (m : Canvas.t)
    (x y : float) :
  Editor.maskCanvasRef s = Some m ->
  Forall (fun px => 0 <= alpha px) (Canvas.bitmap m) ->
  exists m',
    Editor.maskCanvasRef (Editor.drawMask env x y s) = Some m'
    /\ (forall p, whiteAt m p = true -> whiteAt m' p = true)
    /\ (whitePixels m <= whitePixels m')%nat.
Proof.
  intros Hm Hbytes. eexists. split; [exact (drawMask_mask env x y s m Hm)|].
  destruct (context2d env).
  - assert (Hkeep : forall p, whiteAt m p = true ->
              whiteAt (Canvas.fillWhite
                         (coverage env x y (PrimFloat.div (JS.ofZ (Editor.brushSize s)) 2)
                            (Canvas.width m) (Canvas.height m)) m) p = true)
      by (intros p; apply fillWhite_keeps_white; exact Hbytes).
    split; [exact Hkeep|].
    unfold whitePixels.
    change (Canvas.width (Canvas.fillWhite _ m)) with (Canvas.width m).
    change (Canvas.height (Canvas.fillWhite _ m)) with (Canvas.height m).
    apply filter_length_le. exact Hkeep.
  - split; [auto | reflexivity].
Qed.

(** A soft stroke over a mask whose two pixels are already white (grey
    191): each is half covered, becomes grey 223 and stays white. *)
Lemma strokes_never_erase_witness :
  whitePixels (Canvas.mk 2 1 [RGBA 191 191 191 255; RGBA 191 191 191 255]) = 2%nat
  /\ whiteAt (Canvas.mk 2 1 [RGBA 191 191 191 255; RGBA 191 191 191 255]) 0 = true
  /\ Editor.maskCanvasRef (Editor.drawMask Sample.soft 0.5 0.5 Sample.shaded)
     = Some (Canvas.mk 2 1 [RGBA 223 223 223 255; RGBA 223 223 223 255])
  /\ exists m',
       Editor.maskCanvasRef (Editor.drawMask Sample.soft 0.5 0.5 Sample.shaded) = Some m'
       /\ (forall p,
             whiteAt (Canvas.mk 2 1 [RGBA 191 191 191 255; RGBA 191 191 191 255]) p = true ->
             whiteAt m' p = true)
       /\ (whitePixels (Canvas.mk 2 1 [RGBA 191 191 191 255; RGBA 191 191 191 255])
           <= whitePixels m')%nat.
Proof.
  split; [reflexivity|]. split; [reflexivity|]. split; [vm_compute; reflexivity|].
  apply (strokes_never_erase Sample.soft Sample.shaded
           (Canvas.mk 2 1 [RGBA 191 191 191 255; RGBA 191 191 191 255]) 0.5 0.5).
  - vm_compute. reflexivity.
  - repeat constructor; simpl; lia.
Defined.

(** * Further properties *)

(** ** The Compressor, continued *)

Lemma chained_next q d e rest :
  chained (Compressor.ToBlob q d :: e :: rest) ->
  e = Compressor.ToBlob (JS.fmax 0.1 (PrimFloat.sub q 0.2)) (Z.max 400 (d - 200))
  /\ Compressor.canRetry q d = true
  /\ chained (e :: rest).
Proof.
  cbn [chained]. destruct e as [|q' d']; [contradiction|].
  intros (Hq & Hd & -> & -> & Hrest). repeat split; [|exact Hrest].
  unfold Compressor.canRetry. rewrite Hq. apply Z.ltb_lt in Hd. rewrite Hd. reflexivity.
Qed.

(** A chained log that starts at [(q, d)] is an initial part of the
    schedule from [(q, d)]. *)
Lemma chained_schedule n log q d :
  chained log ->
  (log = [] \/ exists rest, log = Compressor.ToBlob q d :: rest) ->
  (length log <= n)%nat ->
  exists k, log = take k (schedule n q d).
Proof.
  revert log q d. induction n as [|n IH]; intros log q d Hch Hhead Hlen.
  - destruct log; [exists 0%nat; reflexivity | cbn in Hlen; lia].
  - destruct Hhead as [-> | [rest ->]]; [exists 0%nat; reflexivity|].
    destruct rest as [|e rest].
    + exists 1%nat. reflexivity.
    + destruct (chained_next q d e rest Hch) as (-> & Hretry & Hrest).
      destruct (IH _ (JS.fmax 0.1 (PrimFloat.sub q 0.2)) (Z.max 400 (d - 200)) Hrest)
        as [k Hk]; [right; eexists; reflexivity | cbn in Hlen |- *; lia |].
      exists (S k). cbn [schedule take]. rewrite Hretry. f_equal. exact Hk.
Qed.

Lemma compressWithSettings_schedule env file maxSizeKB img q d :
  exists k,
    snd (Compressor.compressWithSettings env file maxSizeKB img q d)
    = take k (schedule (1 + Z.to_nat ((d - 201) / 200)) q d).
Proof.
  apply chained_schedule.
  - apply compress_log_chained.
  - apply compress_log_head.
  - apply compress_log_length.
Qed.

(** X1. The attempts of [compressImage] follow a fixed schedule: what it
    asks of the browser is an initial part of: load the image, then encode
    at quality 0.7 and dimension 1200, at 0.7 - 0.2 and 1000, at
    0.7 - 0.2 - 0.2 and 800, at 0.1 and 600 (for a file over ten
    mebibytes: at 0.3 and 800, at 0.1 and 600). The quality floor stops
    the retries there, so there are at most four encoding attempts and the
    dimension floor of 400 is never reached. *)
Theorem compressImage_schedule (env : Env) (file : File.t) (maxSizeKB : Z) :
  exists k,
    snd (Compressor.compressImage env file maxSizeKB)
    = take k
        (Compressor.LoadImage
         :: (if 10 * 1024 * 1024 <? File.size file
             then [Compressor.ToBlob 0.3 800; Compressor.ToBlob 0.1 600]
             else [Compressor.ToBlob 0.7 1200;
                   Compressor.ToBlob (PrimFloat.sub 0.7 0.2) 1000;
                   Compressor.ToBlob (PrimFloat.sub (PrimFloat.sub 0.7 0.2) 0.2) 800;
                   Compressor.ToBlob 0.1 600])).
Proof.
  unfold Compressor.compressImage.
  destruct (File.size file <=? maxSizeKB * 1024); [exists 0%nat; reflexivity|].
  destruct (loadImage env file) as [img|]; [|exists 1%nat; reflexivity].
  rewrite logged_snd.
  destruct (10 * 1024 * 1024 <? File.size file).
  - destruct (compressWithSettings_schedule env file maxSizeKB img 0.3 800) as [k ->].
    exists (S k).
    replace (schedule (1 + Z.to_nat ((800 - 201) / 200)) 0.3 800)
      with [Compressor.ToBlob 0.3 800; Compressor.ToBlob 0.1 600]
      by (vm_compute; reflexivity).
    reflexivity.
  - destruct (compressWithSettings_schedule env file maxSizeKB img 0.7 1200) as [k ->].
    exists (S k).
    replace (schedule (1 + Z.to_nat ((1200 - 201) / 200)) 0.7 1200)
      with [Compressor.ToBlob 0.7 1200;
            Compressor.ToBlob (PrimFloat.sub 0.7 0.2) 1000;
            Compressor.ToBlob (PrimFloat.sub (PrimFloat.sub 0.7 0.2) 0.2) 800;
            Compressor.ToBlob 0.1 600]
      by (vm_compute; reflexivity).
    reflexivity.
Qed.

(** [compressImage] resolves with the file it was given or with a JPEG of
    the same name. *)
Lemma compressImage_resolves_or_jpeg env file maxSizeKB :
  fst (Compressor.compressImage env file maxSizeKB) = file
  \/ (File.type (fst (Compressor.compressImage env file maxSizeKB)) = "image/jpeg"
      /\ File.name (fst (Compressor.compressImage env file maxSizeKB)) = File.name file
      /\ File.lastModified (fst (Compressor.compressImage env file maxSizeKB)) = now env).
Proof.
  unfold Compressor.compressImage.
  destruct (File.size file <=? maxSizeKB * 1024); [left; reflexivity|].
  destruct (loadImage env file) as [img|]; [|left; reflexivity].
  rewrite logged_fst. apply compressWithSettings_file.
Qed.

(** X2. [compressImage] always resolves, and only with the file it was
    given or with a file of type image/jpeg that has the name of the
    original and the time of the encoding; it never resolves with any
    other file. *)
Theorem compressImage_resolves (env : Env) (file : File.t) (maxSizeKB : Z) :
  fst (Compressor.compressImage env file maxSizeKB) = file
  \/ (File.type (fst (Compressor.compressImage env file maxSizeKB)) = "image/jpeg"
      /\ File.name (fst (Compressor.compressImage env file maxSizeKB)) = File.name file
      /\ File.lastModified (fst (Compressor.compressImage env file maxSizeKB)) = now env
      /\ File.size file > maxSizeKB * 1024).
Proof.
  unfold Compressor.compressImage.
  destruct (Z.leb_spec (File.size file) (maxSizeKB * 1024)) as [_|Hgt];
    [left; reflexivity|].
  destruct (loadImage env file) as [img|]; [|left; reflexivity].
  rewrite logged_fst.
  destruct (compressWithSettings_file env file maxSizeKB img
              (if 10 * 1024 * 1024 <? File.size file then 0.3%float else 0.7%float)
              (if 10 * 1024 * 1024 <? File.size file then 800 else 1200))
    as [H | (Ht & Hn & Hm)]; [left; exact H|].
  right. repeat split; try assumption. lia.
Qed.

(** ** The set-up invariant *)

Lemma setUp_inv s :
  setUp s ->
  exists c m o,
    Editor.canvasRef s = Some c /\ Editor.maskCanvasRef s = Some m
    /\ Editor.originalImageDataRef s = Some o
    /\ ImageData.width o = Canvas.width c
    /\ ImageData.height o = Canvas.height c
    /\ length (ImageData.data o) = (4 * (Canvas.width c * Canvas.height c))%nat
    /\ Canvas.width m = Canvas.width c
    /\ Canvas.height m = Canvas.height c.
Proof.
  unfold setUp.
  destruct (Editor.canvasRef s) as [c|]; [|contradiction].
  destruct (Editor.maskCanvasRef s) as [m|]; [|contradiction].
  destruct (Editor.originalImageDataRef s) as [o|]; [|contradiction].
  intros H. exists c, m, o. tauto.
Qed.

Lemma setUp_intro s c m o :
  Editor.canvasRef s = Some c -> Editor.maskCanvasRef s = Some m ->
  Editor.originalImageDataRef s = Some o ->
  ImageData.width o = Canvas.width c ->
  ImageData.height o = Canvas.height c ->
  length (ImageData.data o) = (4 * (Canvas.width c * Canvas.height c))%nat ->
  Canvas.width m = Canvas.width c ->
  Canvas.height m = Canvas.height c ->
  setUp s.
Proof. unfold setUp. intros -> -> ->. tauto. Qed.

(** A state that differs from a set-up one only in canvases of the same
    sizes is set up. *)
Lemma setUp_same_size s s' :
  setUp s ->
  Editor.originalImageDataRef s' = Editor.originalImageDataRef s ->
  (fun c => (Canvas.width c, Canvas.height c)) <$> Editor.canvasRef s'
  = (fun c => (Canvas.width c, Canvas.height c)) <$> Editor.canvasRef s ->
  maskSize s' = maskSize s ->
  setUp s'.
Proof.
  intros Hs Ho Hc Hm.
  destruct (setUp_inv s Hs) as (c & m & o & Ec & Em & Eo & H1 & H2 & H3 & H4 & H5).
  unfold maskSize in Hm. rewrite Ec in Hc. rewrite Em in Hm. rewrite Eo in Ho.
  destruct (Editor.canvasRef s') as [c'|] eqn:Ec'; [|discriminate].
  destruct (Editor.maskCanvasRef s') as [m'|] eqn:Em'; [|discriminate].
  cbn in Hc, Hm. injection Hc as Hcw Hch. injection Hm as Hmw Hmh.
  apply (setUp_intro s' c' m' o Ec' Em' Ho); congruence.
Qed.

(** The overlay leaves the original image data and the size of the
    display canvas as they were. *)
Lemma updateCanvasWithMask_same env s :
  Editor.originalImageDataRef (Editor.updateCanvasWithMask env s)
  = Editor.originalImageDataRef s
  /\ (fun c => (Canvas.width c, Canvas.height c))
     <$> Editor.canvasRef (Editor.updateCanvasWithMask env s)
     = (fun c => (Canvas.width c, Canvas.height c)) <$> Editor.canvasRef s.
Proof.
  unfold Editor.updateCanvasWithMask. fields s.
  repeat case_match; split; reflexivity.
Qed.

Lemma drawMask_same env x y s :
  Editor.originalImageDataRef (Editor.drawMask env x y s)
  = Editor.originalImageDataRef s
  /\ (fun c => (Canvas.width c, Canvas.height c))
     <$> Editor.canvasRef (Editor.drawMask env x y s)
     = (fun c => (Canvas.width c, Canvas.height c)) <$> Editor.canvasRef s.
Proof.
  unfold Editor.drawMask.
  destruct (Editor.maskCanvasRef s); [|split; reflexivity].
  destruct (context2d env); [|split; reflexivity].
  destruct (updateCanvasWithMask_same env
              (Editor.withMaskCanvas
                 (Some (Canvas.fillWhite
                          (coverage env x y (PrimFloat.div (JS.ofZ (Editor.brushSize s)) 2)
                             (Canvas.width t) (Canvas.height t)) t)) s)) as [-> ->].
  split; reflexivity.
Qed.

Lemma clearMask_same env s :
  Editor.originalImageDataRef (Editor.clearMask env s) = Editor.originalImageDataRef s
  /\ (fun c => (Canvas.width c, Canvas.height c))
     <$> Editor.canvasRef (Editor.clearMask env s)
     = (fun c => (Canvas.width c, Canvas.height c)) <$> Editor.canvasRef s.
Proof.
  unfold Editor.clearMask. fields s. repeat case_match; split; reflexivity.
Qed.

Lemma handleSubmit_same env s :
  Editor.originalImageDataRef (Editor.handleSubmit env s) = Editor.originalImageDataRef s
  /\ Editor.canvasRef (Editor.handleSubmit env s) = Editor.canvasRef s.
Proof.
  unfold Editor.handleSubmit, Editor.submitted. fields s.
  repeat case_match; simplify_eq; split; reflexivity.
Qed.

Lemma generateMaskImage_same env s :
  Editor.originalImageDataRef (Editor.generateMaskImage env s)
  = Editor.originalImageDataRef s
  /\ Editor.canvasRef (Editor.generateMaskImage env s) = Editor.canvasRef s.
Proof.
  unfold Editor.generateMaskImage. fields s. repeat case_match; split; reflexivity.
Qed.

(** No handler but the upload handler touches the original image data or
    resizes the display canvas. *)
Lemma handle_same env a s :
  isUpload a = false ->
  Editor.originalImageDataRef (Editor.handle env a s) = Editor.originalImageDataRef s
  /\ (fun c => (Canvas.width c, Canvas.height c))
     <$> Editor.canvasRef (Editor.handle env a s)
     = (fun c => (Canvas.width c, Canvas.height c)) <$> Editor.canvasRef s.
Proof.
  destruct a; cbn [isUpload Editor.handle]; intros Ha; try discriminate.
  - unfold Editor.startDrawing.
    destruct (drawMask_same env (x (Editor.getPosition env event s))
                (y (Editor.getPosition env event s)) (Editor.setIsDrawing true s))
      as [-> ->]. split; reflexivity.
  - unfold Editor.continueDrawing. destruct (Editor.isDrawing s); [|split; reflexivity].
    apply drawMask_same.
  - split; reflexivity.
  - apply clearMask_same.
  - destruct (generateMaskImage_same env s) as [-> ->]. split; reflexivity.
  - unfold Editor.downloadMask. destruct (Editor.maskImage s); split; reflexivity.
  - destruct (handleSubmit_same env s) as [-> ->]. split; reflexivity.
  - split; reflexivity.
  - split; reflexivity.
Qed.

Lemma render_setUp s : setUp s -> Editor.image s <> None -> Editor.render s = s.
Proof.
  intros Hs Hi.
  destruct (setUp_inv s Hs) as (c & m & o & Ec & Em & _).
  destruct (Editor.image s) as [i|] eqn:Ei; [|congruence].
  exact (render_mounted s i c m Ei Ec Em).
Qed.

Lemma handleImageUpload_setUp env file s :
  setUp s -> setUp (Editor.handleImageUpload env file s).
Proof.
  intros Hs. destruct file as [file|]; [|exact Hs].
  unfold Editor.handleImageUpload.
  set (s0 := Editor.setOriginalFile _ _).
  assert (Hs0 : setUp s0) by exact Hs.
  destruct (readAsDataURL env _); [exact Hs0|].
  destruct (String.eqb result ""); [exact Hs0|].
  destruct (loadImage env _) as [img|]; [|exact Hs0].
  destruct (setUp_inv s0 Hs0) as (c & m & o & Ec & Em & _).
  unfold Editor.setupCanvas.
  cbn [Editor.canvasRef Editor.maskCanvasRef Editor.setImage].
  rewrite Ec, Em.
  destruct (context2d env) eqn:Hctx; [|exact Hs0].
  cbn [andb]. eapply setUp_intro; try reflexivity.
  apply getImageData_length.
Qed.

Lemma handle_setUp env a s : setUp s -> setUp (Editor.handle env a s).
Proof.
  intros Hs. destruct (isUpload a) eqn:Ha.
  - destruct a; try discriminate. apply handleImageUpload_setUp. exact Hs.
  - destruct (handle_same env a s Ha) as [Ho Hc].
    pose proof (handle_frame env a s Ha) as Hf.
    apply (setUp_same_size s _ Hs Ho Hc). unfold frame in Hf. congruence.
Qed.

Lemma handle_image env a s :
  Editor.image s <> None -> Editor.image (Editor.handle env a s) <> None.
Proof.
  intros Hi. destruct (isUpload a) eqn:Ha.
  - destruct a as [[file|]| | | | | | | | |]; try discriminate; [|exact Hi].
    cbn [Editor.handle]. unfold Editor.handleImageUpload, Editor.setupCanvas.
    fields s. repeat case_match; cbn; congruence.
  - pose proof (handle_frame env a s Ha) as Hf. unfold frame in Hf. congruence.
Qed.



(** X4. The original image data is taken at upload and never modified
    afterwards: any sequence of actions without an upload leaves it as it
    was. *)
Theorem original_is_kept (env : Env) (s : Editor.State)
    (actions : list Editor.Action) :
  Forall (fun a => isUpload a = false) actions ->
  setUp s -> Editor.image s <> None ->
  Editor.originalImageDataRef (Editor.run env s actions)
  = Editor.originalImageDataRef s.
Proof.
  intros Hactions. revert s.
  induction Hactions as [|a actions Ha _ IH]; intros s Hs Hi; [reflexivity|].
  change (Editor.run env s (a :: actions))
    with (Editor.run env (Editor.step env s a) actions).
  pose proof (handle_setUp env a s Hs) as Hs'.
  pose proof (handle_image env a s Hi) as Hi'.
  unfold Editor.step. rewrite (render_setUp _ Hs' Hi').
  rewrite (IH _ Hs' Hi'). exact (proj1 (handle_same env a s Ha)).
Qed.

Lemma original_is_kept_witness :
  Editor.originalImageDataRef
    (Editor.run Sample.env Sample.ready
       [Editor.StartDrawing (Editor.MouseEvent 0.5 0.5); Editor.StopDrawing;
        Editor.GenerateMask; Editor.Submit; Editor.ClearMask])
  = Some (ImageData.mk 2 1 [10; 20; 30; 255; 200; 100; 50; 255]).
Proof.
  rewrite (original_is_kept Sample.env Sample.ready).
  - vm_compute. reflexivity.
  - repeat constructor.
  - vm_compute. repeat split.
  - vm_compute. discriminate.
Defined.

(** ** Clearing, painting and the overlay *)

(** Putting image data of the size of the canvas replaces the whole
    bitmap, whatever it was. *)
Lemma putImageData_full (o : ImageData.t) (c : Canvas.t) :
  ImageData.width o = Canvas.width c ->
  ImageData.height o = Canvas.height c ->
  Canvas.putImageData o c
  = Canvas.mk (Canvas.width c) (Canvas.height c)
      (ImageData.pixelAt (ImageData.data o) <$> seq 0 (Canvas.width c * Canvas.height c)).
Proof.
  intros Hw Hh. unfold Canvas.putImageData, Canvas.blit. rewrite Hw, Hh. f_equal.
  apply list_eq. intros p.
  rewrite list_lookup_imap, list_lookup_fmap.
  destruct (decide (p < Canvas.width c * Canvas.height c)%nat) as [Hp|Hp].
  - destruct (lookup_lt_is_Some_2
                (resize (Canvas.width c * Canvas.height c) transparent (Canvas.bitmap c)) p)
      as [old Hold]; [rewrite length_resize; exact Hp|].
    rewrite Hold, lookup_seq_lt by exact Hp. cbn [fmap option_fmap option_map].
    destruct (row_major_index _ _ _ Hp) as (Hx & Hy & Hxy).
    apply Nat.ltb_lt in Hx, Hy. rewrite Hx, Hy, Hxy. reflexivity.
  - rewrite lookup_ge_None_2 by (rewrite length_resize; lia).
    rewrite lookup_ge_None_2 by (rewrite length_seq; lia). reflexivity.
Qed.

Lemma putImageData_same_size (o : ImageData.t) (c c' : Canvas.t) :
  ImageData.width o = Canvas.width c ->
  ImageData.height o = Canvas.height c ->
  Canvas.width c' = Canvas.width c ->
  Canvas.height c' = Canvas.height c ->
  Canvas.putImageData o c' = Canvas.putImageData o c.
Proof.
  intros Hw Hh Hw' Hh'.
  rewrite (putImageData_full o c Hw Hh).
  rewrite (putImageData_full o c') by congruence. rewrite Hw', Hh'. reflexivity.
Qed.

Lemma fmap_size_eq (a b : option Canvas.t) c :
  (fun c => (Canvas.width c, Canvas.height c)) <$> a
  = (fun c => (Canvas.width c, Canvas.height c)) <$> b ->
  b = Some c ->
  exists c', a = Some c' /\ Canvas.width c' = Canvas.width c
             /\ Canvas.height c' = Canvas.height c.
Proof.
  intros H ->. destruct a as [c'|]; [|discriminate].
  cbn in H. injection H as Hw Hh. eauto.
Qed.

(** X5. [clearMask] resets the mask and the display: on set-up canvases
    the mask canvas becomes black everywhere, so it has no white pixel,
    and the display canvas shows the original image data again. *)
Theorem clearMask_resets (env : Env) (s : Editor.State) :
  setUp s -> context2d env = true ->
  exists c m o,
    Editor.canvasRef (Editor.clearMask env s) = Some c
    /\ Editor.maskCanvasRef (Editor.clearMask env s) = Some m
    /\ Editor.originalImageDataRef s = Some o
    /\ Canvas.getImageData c = o
    /\ Canvas.bitmap m = replicate (Canvas.width m * Canvas.height m) black
    /\ whitePixels m = 0%nat.
Proof.
  intros Hs Hctx.
  destruct (setUp_inv s Hs) as (c & m & o & Ec & Em & Eo & H1 & H2 & H3 & H4 & H5).
  rewrite (clearMask_mask env s o c m Eo Ec Em Hctx).
  eexists _, _, o. split; [reflexivity|]. split; [reflexivity|]. split; [exact Eo|].
  split; [apply getImageData_putImageData; assumption|].
  split; [reflexivity|].
  unfold whitePixels. cbn [Canvas.width Canvas.height].
  generalize (seq 0 (Canvas.width m * Canvas.height m)). intros l.
  induction l as [|p l IH]; [reflexivity|].
  cbn [List.filter]. rewrite whiteAt_spec. cbn [Canvas.width Canvas.height Canvas.bitmap].
  rewrite resize_all_alt by (rewrite length_replicate; reflexivity).
  destruct (replicate _ black !! p) as [px|] eqn:Hpx; [|exact IH].
  apply lookup_replicate in Hpx as [-> _]. exact IH.
Qed.

Lemma clearMask_resets_witness :
  exists c m o,
    Editor.canvasRef
      (Editor.clearMask Sample.env
         (Editor.startDrawing Sample.env (Editor.MouseEvent 0.5 0.5) Sample.ready))
    = Some c
    /\ Editor.maskCanvasRef
         (Editor.clearMask Sample.env
            (Editor.startDrawing Sample.env (Editor.MouseEvent 0.5 0.5) Sample.ready))
       = Some m
    /\ Editor.originalImageDataRef
         (Editor.startDrawing Sample.env (Editor.MouseEvent 0.5 0.5) Sample.ready)
       = Some o
    /\ Canvas.getImageData c = o
    /\ Canvas.bitmap m = replicate (Canvas.width m * Canvas.height m) black
    /\ whitePixels m = 0%nat.
Proof.
  apply (clearMask_resets Sample.env
           (Editor.startDrawing Sample.env (Editor.MouseEvent 0.5 0.5) Sample.ready)).
  - vm_compute. repeat split.
  - reflexivity.
Defined.

(** X6. Clearing forgets the strokes: on set-up canvases, a stroke point
    followed by [clearMask] leaves the same mask canvas and the same
    display canvas as [clearMask] alone. *)
Theorem clearMask_after_drawMask (env : Env) (s : Editor.State) (x y : float) :
  setUp s ->
  Editor.maskCanvasRef (Editor.clearMask env (Editor.drawMask env x y s))
  = Editor.maskCanvasRef (Editor.clearMask env s)
  /\ Editor.canvasRef (Editor.clearMask env (Editor.drawMask env x y s))
     = Editor.canvasRef (Editor.clearMask env s).
Proof.
  intros Hs.
  destruct (setUp_inv s Hs) as (c & m & o & Ec & Em & Eo & H1 & H2 & H3 & H4 & H5).
  destruct (context2d env) eqn:Hctx.
  2:{ assert (Hsame : Editor.drawMask env x y s = s)
        by (unfold Editor.drawMask; rewrite Em, Hctx; reflexivity).
      rewrite Hsame. split; reflexivity. }
  destruct (drawMask_same env x y s) as [Ho' Hc'].
  destruct (fmap_size_eq _ _ c Hc' Ec) as (c' & Ec' & Hw' & Hh').
  pose proof (drawMask_mask env x y s m Em) as Em'. rewrite Hctx in Em'.
  rewrite Eo in Ho'.
  rewrite (clearMask_mask env _ o c' _ Ho' Ec' Em' Hctx).
  rewrite (clearMask_mask env s o c m Eo Ec Em Hctx).
  cbn [Editor.maskCanvasRef Editor.canvasRef Editor.withCanvas Editor.withMaskCanvas
       Canvas.width Canvas.height Canvas.fillWhite].
  split; [reflexivity|].
  rewrite (putImageData_same_size o c c') by assumption. reflexivity.
Qed.

Lemma clearMask_after_drawMask_witness :
  Editor.maskCanvasRef
    (Editor.clearMask Sample.env (Editor.drawMask Sample.env 0.5 0.5 Sample.ready))
  = Editor.maskCanvasRef (Editor.clearMask Sample.env Sample.ready)
  /\ Editor.canvasRef
       (Editor.clearMask Sample.env (Editor.drawMask Sample.env 0.5 0.5 Sample.ready))
     = Editor.canvasRef (Editor.clearMask Sample.env Sample.ready).
Proof.
  apply (clearMask_after_drawMask Sample.env Sample.ready 0.5 0.5).
  vm_compute. repeat split.
Defined.

Lemma paintWhite_full a px : 255 <= a -> Canvas.paintWhite a px = white.
Proof.
  intros Ha. unfold Canvas.paintWhite.
  replace (clamp8 a) with 255 by (unfold clamp8; lia).
  replace (255 * 255 + alpha px * (255 - 255)) with 65025 by lia.
  change (65025 <=? 0) with false. cbv iota.
  replace (255 - 255) with 0 by lia. rewrite !Z.mul_0_r, !Z.add_0_r. reflexivity.
Qed.

Lemma paintWhite_none a px : a <= 0 -> Canvas.paintWhite a px = px.
Proof.
  intros Ha. unfold Canvas.paintWhite.
  replace (clamp8 a) with 0 by (unfold clamp8; lia).
  destruct (Z.leb_spec (255 * 0 + alpha px * (255 - 0)) 0) as [_|Hden]; [reflexivity|].
  assert (Hpos : 0 < alpha px * 255) by lia.
  replace (255 * 0 + alpha px * (255 - 0)) with (alpha px * 255) by lia.
  assert (Hch : forall v, Canvas.nearest (255 * 255 * 0 + v * alpha px * (255 - 0))
                            (alpha px * 255) = v).
  { intros v.
    replace (255 * 255 * 0 + v * alpha px * (255 - 0)) with (v * (alpha px * 255)) by lia.
    apply nearest_mul. exact Hpos. }
  rewrite !Hch, nearest_mul by lia.
  destruct px; reflexivity.
Qed.

(** X7. A stroke point paints what the rasteriser covers: after
    [drawMask] the mask canvas has its size unchanged, every pixel the
    disc covers fully is white (255, 255, 255, 255) whatever it was, and
    every pixel the disc does not touch is as it was. *)
Theorem drawMask_paints_the_disc (env : Env) (s : Editor.State) (m : Canvas.t)
    (x y : float) (p : nat) (px : Pixel) :
  Editor.maskCanvasRef s = Some m ->
  context2d env = true ->
  resize (Canvas.width m * Canvas.height m) transparent (Canvas.bitmap m) !! p = Some px ->
  exists m',
    Editor.maskCanvasRef (Editor.drawMask env x y s) = Some m'
    /\ Canvas.width m' = Canvas.width m
    /\ Canvas.height m' = Canvas.height m
    /\ (255 <= coverage env x y (PrimFloat.div (JS.ofZ (Editor.brushSize s)) 2)
                 (Canvas.width m) (Canvas.height m) p ->
        resize (Canvas.width m * Canvas.height m) transparent (Canvas.bitmap m') !! p
        = Some white)
    /\ (coverage env x y (PrimFloat.div (JS.ofZ (Editor.brushSize s)) 2)
          (Canvas.width m) (Canvas.height m) p <= 0 ->
        resize (Canvas.width m * Canvas.height m) transparent (Canvas.bitmap m') !! p
        = Some px).
Proof.
  intros Em Hctx Hpx. eexists. split.
  { rewrite (drawMask_mask env x y s m Em), Hctx. reflexivity. }
  split; [reflexivity|]. split; [reflexivity|].
  split; intros Hcov; rewrite fillWhite_lookup, Hpx; cbn [fmap option_fmap option_map].
  - rewrite paintWhite_full by exact Hcov. reflexivity.
  - rewrite paintWhite_none by exact Hcov. reflexivity.
Qed.

(** A brush of diameter 1 at the centre of the left pixel of the sample
    canvas covers that pixel and not the right one. *)
Lemma drawMask_paints_the_disc_witness :
  (exists m',
     Editor.maskCanvasRef
       (Editor.drawMask Sample.env 0.5 0.5 (Editor.setBrushSize 1 Sample.ready)) = Some m'
     /\ resize 2 transparent (Canvas.bitmap m') !! 0%nat = Some white)
  /\ (exists m',
        Editor.maskCanvasRef
          (Editor.drawMask Sample.env 0.5 0.5 (Editor.setBrushSize 1 Sample.ready)) = Some m'
        /\ resize 2 transparent (Canvas.bitmap m') !! 1%nat = Some black).
Proof.
  split.
  - destruct (drawMask_paints_the_disc Sample.env (Editor.setBrushSize 1 Sample.ready)
                (Canvas.mk 2 1 [black; black]) 0.5 0.5 0%nat black)
      as (m' & Hm' & _ & _ & Hfull & _).
    + vm_compute. reflexivity.
    + reflexivity.
    + reflexivity.
    + exists m'. split; [exact Hm'|]. apply Hfull. vm_compute. discriminate.
  - destruct (drawMask_paints_the_disc Sample.env (Editor.setBrushSize 1 Sample.ready)
                (Canvas.mk 2 1 [black; black]) 0.5 0.5 1%nat black)
      as (m' & Hm' & _ & _ & _ & Hnone).
    + vm_compute. reflexivity.
    + reflexivity.
    + reflexivity.
    + exists m'. split; [exact Hm'|]. apply Hnone. vm_compute. discriminate.
Defined.

(** ** The overlay *)

Lemma modify_length d i f : length (Editor.modify d i f) = length d.
Proof.
  unfold Editor.modify. destruct (d !! i); [apply store_length | reflexivity].
Qed.

Lemma modify_lookup d i f j :
  Editor.modify d i f !! j
  = if decide (j = i) then (fun v => clamp8 (f v)) <$> d !! j else d !! j.
Proof.
  unfold Editor.modify, store. destruct (d !! i) as [v|] eqn:Hv.
  - rewrite list_lookup_insert. pose proof (lookup_lt_Some _ _ _ Hv) as Hlt.
    destruct (decide (j = i)) as [->|Hne].
    + rewrite decide_True by (split; [reflexivity | exact Hlt]).
      rewrite Hv. reflexivity.
    + rewrite decide_False by (intros [? _]; congruence). reflexivity.
  - case_decide; [subst; rewrite Hv|]; reflexivity.
Qed.

Lemma tint_length mask i d : length (Editor.tint mask i d) = length d.
Proof.
  unfold Editor.tint. destruct (above128 mask i); [|reflexivity].
  rewrite !modify_length. reflexivity.
Qed.

Lemma tint_lookup mask i d j :
  Editor.tint mask i d !! j
  = if above128 mask i && bool_decide (i <= j < i + 4)%nat
    then tintChannel (j - i) <$> d !! j
    else d !! j.
Proof.
  unfold Editor.tint. destruct (above128 mask i); [|reflexivity].
  cbn [andb]. rewrite !modify_lookup.
  case_bool_decide as Hin.
  - destruct (decide (j = i)) as [->|].
    { repeat case_decide; try lia. rewrite Nat.sub_diag. reflexivity. }
    destruct (decide (j = i + 1)%nat) as [->|].
    { repeat case_decide; try lia.
      replace (i + 1 - i)%nat with 1%nat by lia. reflexivity. }
    destruct (decide (j = i + 2)%nat) as [->|].
    { repeat case_decide; try lia.
      replace (i + 2 - i)%nat with 2%nat by lia. reflexivity. }
    repeat case_decide; try lia.
    replace (j - i)%nat with 3%nat by lia.
    destruct (d !! j); reflexivity.
  - repeat case_decide; try lia; reflexivity.
Qed.

Lemma forFrom_tint_length mask n i d :
  length (forFrom n i (Editor.tint mask) d) = length d.
Proof.
  revert i d. induction n as [|n IH]; intros i d; cbn [forFrom]; [reflexivity|].
  rewrite IH. apply tint_length.
Qed.

Lemma forFrom_tint_lookup mask n k d j :
  forFrom n (4 * k) (Editor.tint mask) d !! j
  = if above128 mask (4 * (j / 4)) && bool_decide (4 * k <= j < 4 * (k + n))%nat
    then tintChannel (j mod 4) <$> d !! j
    else d !! j.
Proof.
  revert k d. induction n as [|n IH]; intros k d; cbn [forFrom].
  - case_bool_decide; [lia|]. rewrite andb_false_r. reflexivity.
  - replace (4 * k + 4)%nat with (4 * S k)%nat by lia.
    rewrite IH, tint_lookup.
    destruct (decide (4 * k <= j < 4 * k + 4)%nat) as [Hin|Hout].
    + assert (Hk : (j / 4)%nat = k)
        by (symmetry; apply Nat.div_unique with (r := (j - 4 * k)%nat); lia).
      assert (Hm : (j mod 4)%nat = (j - 4 * k)%nat)
        by (symmetry; apply Nat.mod_unique with (q := k); lia).
      rewrite Hk, Hm.
      repeat case_bool_decide; try lia.
      rewrite andb_false_r, andb_true_r.
      destruct (above128 mask (4 * k)); reflexivity.
    + repeat case_bool_decide; try lia; rewrite ?andb_false_r, ?andb_true_r;
        destruct (above128 mask (4 * (j / 4))), (above128 mask (4 * k)); reflexivity.
Qed.

(** X8. The overlay is the original with the white part of the mask
    tinted: after [updateCanvasWithMask] on set-up canvases, every element
    of the display canvas is the element of the original image data, with
    100 added to red (at most 255) and 50 taken from green and from blue
    (at least 0) in the pixels that are white in the mask; alpha and all
    other pixels are those of the original. *)
Theorem overlay_tints_the_mask (env : Env) (s : Editor.State) :
  setUp s -> context2d env = true ->
  exists c' m o,
    Editor.canvasRef (Editor.updateCanvasWithMask env s) = Some c'
    /\ Editor.maskCanvasRef s = Some m
    /\ Editor.originalImageDataRef s = Some o
    /\ length (ImageData.data (Canvas.getImageData c')) = length (ImageData.data o)
    /\ forall j,
         ImageData.data (Canvas.getImageData c') !! j
         = (if whiteAt m (j / 4) then tintChannel (j mod 4) else fun v => v)
           <$> ImageData.data o !! j.
Proof.
  intros Hs Hctx.
  destruct (setUp_inv s Hs) as (c & m & o & Ec & Em & Eo & H1 & H2 & H3 & H4 & H5).
  unfold Editor.updateCanvasWithMask. rewrite Ec, Em, Eo, Hctx. cbn [andb].
  rewrite (getImageData_putImageData o c H1 H2 H3).
  set (tinted := forStride4 _ _ _).
  assert (Hlen : length tinted = length (ImageData.data o))
    by apply forFrom_tint_length.
  eexists _, m, o. split; [reflexivity|]. split; [reflexivity|]. split; [reflexivity|].
  rewrite getImageData_putImageData;
    [| exact H1 | exact H2 | cbn [ImageData.data]; rewrite Hlen; exact H3].
  cbn [ImageData.data]. split; [exact Hlen|].
  intros j. unfold tinted, forStride4, whiteAt.
  rewrite getImageData_length.
  replace ((4 * (Canvas.width m * Canvas.height m) + 3) / 4)%nat
    with (Canvas.width m * Canvas.height m)%nat
    by (apply Nat.div_unique with (r := 3%nat); lia).
  change 0%nat with (4 * 0)%nat at 1.
  rewrite forFrom_tint_lookup.
  destruct (above128 (ImageData.data (Canvas.getImageData m)) (4 * (j / 4))) eqn:Hw;
    cbn [andb].
  - case_bool_decide as Hin; [reflexivity|].
    rewrite lookup_ge_None_2 by (rewrite H3, <- H4, <- H5; lia). reflexivity.
  - destruct (ImageData.data o !! j); reflexivity.
Qed.

(** The sample canvases after a stroke over both pixels. *)
Lemma overlay_tints_the_mask_witness :
  exists c' m o,
    Editor.canvasRef
      (Editor.updateCanvasWithMask Sample.env
         (Editor.startDrawing Sample.env (Editor.MouseEvent 0.5 0.5) Sample.ready))
    = Some c'
    /\ Editor.maskCanvasRef
         (Editor.startDrawing Sample.env (Editor.MouseEvent 0.5 0.5) Sample.ready)
       = Some m
    /\ Editor.originalImageDataRef
         (Editor.startDrawing Sample.env (Editor.MouseEvent 0.5 0.5) Sample.ready)
       = Some o
    /\ length (ImageData.data (Canvas.getImageData c')) = length (ImageData.data o)
    /\ forall j,
         ImageData.data (Canvas.getImageData c') !! j
         = (if whiteAt m (j / 4) then tintChannel (j mod 4) else fun v => v)
           <$> ImageData.data o !! j.
Proof.
  apply (overlay_tints_the_mask Sample.env
           (Editor.startDrawing Sample.env (Editor.MouseEvent 0.5 0.5) Sample.ready)).
  - vm_compute. repeat split.
  - reflexivity.
Defined.

(** ** Upload, continued *)



(** X10. The first upload does not set the canvases up: they are mounted
    only by the render that follows the handler, so [setupCanvas] finds no
    canvas. Whatever the file, after the first upload no original image
    data has been taken, and if an image was loaded the two canvases are
    the untouched 300 by 150 canvases, whatever the size of the image. *)
Theorem first_upload_is_not_set_up (env : Env) (file : option File.t) :
  Editor.originalImageDataRef
    (Editor.step env Editor.initial (Editor.Upload file)) = None
  /\ (Editor.image (Editor.step env Editor.initial (Editor.Upload file)) = None
      \/ (Editor.canvasRef (Editor.step env Editor.initial (Editor.Upload file))
          = Some Canvas.fresh
          /\ Editor.maskCanvasRef (Editor.step env Editor.initial (Editor.Upload file))
             = Some Canvas.fresh)).
Proof.
  unfold Editor.step, Editor.handle, Editor.handleImageUpload.
  destruct file as [file|]; [|split; [reflexivity | left; reflexivity]].
  destruct (readAsDataURL env _); [split; [reflexivity | left; reflexivity]|].
  destruct (String.eqb result ""); [split; [reflexivity | left; reflexivity]|].
  destruct (loadImage env _);
    split; try reflexivity; [right; split; reflexivity | left; reflexivity].
Qed.

(** ** Submission, continued *)

(** X11. [handleSubmit] is single-shot and always gives the control back:
    it passes at most one body to [fetch], and it either ends with
    [isLoading] false or has refused the submission without touching
    anything but the error message. *)
Theorem handleSubmit_is_single_shot (env : Env) (s : Editor.State) :
  (Editor.requests (Editor.handleSubmit env s) = Editor.requests s
   \/ exists request,
        Editor.requests (Editor.handleSubmit env s) = request :: Editor.requests s)
  /\ (Editor.isLoading (Editor.handleSubmit env s) = false
      \/ Editor.handleSubmit env s
         = Editor.setError "Please upload an image and enter a prompt" s).
Proof.
  unfold Editor.handleSubmit.
  destruct (Editor.originalFile s) as [file|];
    [|split; [left; reflexivity | right; reflexivity]].
  destruct (JS.truthy (JS.trim (Editor.prompt s)));
    [|split; [left; reflexivity | right; reflexivity]].
  unfold Editor.submitted. fields s.
  repeat case_match; simplify_eq; cbn;
    (split; [first [left; reflexivity | right; eexists; reflexivity]
            | left; reflexivity]).
Qed.

(** X12. A response that is not OK is reported by its status alone: when
    the status is outside 200..299 the error shown is "Error submitting
    request: API request failed with status N", whatever the body of the
    response says; the edited image is left as it was and the submit
    control is enabled again. *)
Theorem handleSubmit_reports_status (env : Env) (s : Editor.State) (file : File.t)
    (m : Canvas.t) (n status : Z) (json : Parsed) :
  Editor.originalFile s = Some file ->
  JS.trim (Editor.prompt s) <> [] ->
  Editor.maskCanvasRef s = Some m ->
  encodedSize env "image/png" None (Canvas.getImageData m) = Some n ->
  fetch env {| formImage := file;
               formMask := Blob.mk n "image/png"
                             (Encoded "image/png" None (Canvas.getImageData m));
               formPrompt := Editor.prompt s |}
  = FetchResponse status json ->
  ~ (200 <= status <= 299) ->
  Editor.error (Editor.handleSubmit env s)
  = "Error submitting request: API request failed with status " +:+ pretty status
  /\ Editor.editedImage (Editor.handleSubmit env s) = Editor.editedImage s
  /\ Editor.isLoading (Editor.handleSubmit env s) = false.
Proof.
  intros Hf Hp Hm Hn Hfetch Hstatus. unfold Editor.handleSubmit. rewrite Hf.
  destruct (JS.trim (Editor.prompt s)) as [|c t] eqn:Ht; [congruence|].
  cbn [JS.truthy]. unfold Editor.submitted.
  cbn [Editor.maskCanvasRef Editor.setError Editor.setIsLoading Editor.prompt].
  rewrite Hm. unfold toBlob. rewrite Hn, Hfetch.
  assert (Hok : Editor.ok status = false).
  { unfold Editor.ok. destruct (Z.leb_spec 200 status), (Z.leb_spec status 299);
      try reflexivity. lia. }
  rewrite Hok. repeat split.
Qed.

Lemma handleSubmit_reports_status_witness :
  Editor.error (Editor.handleSubmit Sample.limited Sample.ready)
  = "Error submitting request: API request failed with status 429"
  /\ Editor.editedImage (Editor.handleSubmit Sample.limited Sample.ready) = None
  /\ Editor.isLoading (Editor.handleSubmit Sample.limited Sample.ready) = false.
Proof.
  apply (handleSubmit_reports_status Sample.limited Sample.ready Sample.small
           (Canvas.mk 2 1 [black; black]) 108 429
           (Json {| success := false; editedImageUrl := None;
                    apiError := Some "Rate limit exceeded. Please try again later." |})).
  - vm_compute. reflexivity.
  - vm_compute. discriminate.
  - vm_compute. reflexivity.
  - reflexivity.
  - reflexivity.
  - lia.
Defined.

(** X13. After an upload that fails to load, a submission sends the new
    file with the mask of the previous image: the file to submit was
    replaced before the image was decoded, while the canvases were left as
    they were. *)
Theorem submit_after_failed_upload (env : Env) (s : Editor.State) (file : File.t)
    (url : string) (m : Canvas.t) (n : Z) :
  loadImage env file = None ->
  readAsDataURL env file = ReadLoad url ->
  url <> "" ->
  JS.trim (Editor.prompt s) <> [] ->
  Editor.maskCanvasRef s = Some m ->
  encodedSize env "image/png" None (Canvas.getImageData m) = Some n ->
  Editor.requests
    (Editor.handleSubmit env (Editor.handleImageUpload env (Some file) s))
  = {| formImage := file;
       formMask := Blob.mk n "image/png"
                     (Encoded "image/png" None (Canvas.getImageData m));
       formPrompt := Editor.prompt s |} :: Editor.requests s.
Proof.
  intros Hload Hread Hurl Hp Hm Hn.
  pose proof (compressImage_undecodable env file 4000 Hload) as Hc.
  assert (Hup : Editor.handleImageUpload env (Some file) s
                = Editor.setError "Failed to load image. Please try another file."
                    (Editor.setOriginalFile (Some file)
                       (Editor.setMaskImage None
                          (Editor.setEditedImage None (Editor.setError "" s))))).
  { unfold Editor.handleImageUpload. rewrite Hc, Hread, Hload.
    destruct (String.eqb_spec url ""); [contradiction | reflexivity]. }
  rewrite Hup.
  rewrite (handleSubmit_request env _ file m n); [reflexivity | reflexivity | exact Hp
                                                  | exact Hm | exact Hn].
Qed.

Lemma submit_after_failed_upload_witness :
  Editor.requests
    (Editor.handleSubmit Sample.env
       (Editor.handleImageUpload Sample.env (Some Sample.broken) Sample.ready))
  = [ {| formImage := Sample.broken;
         formMask := Blob.mk 108 "image/png"
                       (Encoded "image/png" None
                          (ImageData.mk 2 1 [0; 0; 0; 255; 0; 0; 0; 255]));
         formPrompt := Sample.pond |} ].
Proof.
  apply (submit_after_failed_upload Sample.env Sample.ready Sample.broken
           "data:image/png;base64,AAAA" (Canvas.mk 2 1 [black; black]) 108).
  - reflexivity.
  - reflexivity.
  - discriminate.
  - vm_compute. discriminate.
  - vm_compute. reflexivity.
  - reflexivity.
Defined.

(** ** Strokes and downloads *)

Lemma render_idempotent s : Editor.render (Editor.render s) = Editor.render s.
Proof.
  unfold Editor.render. fields s. repeat case_match; simplify_eq; reflexivity.
Qed.

Lemma render_isDrawing s : Editor.isDrawing (Editor.render s) = Editor.isDrawing s.
Proof.
  unfold Editor.render. fields s. repeat case_match; reflexivity.
Qed.

(** X14. Pointer moves after the stroke has ended paint nothing: after
    [stopDrawing], any sequence of [continueDrawing] events leaves the
    whole state as it was. *)
Theorem moves_after_stop_are_ignored (env : Env) (s : Editor.State)
    (events : list Editor.PointerEvent) :
  Editor.run env (Editor.step env s Editor.StopDrawing)
    (Editor.ContinueDrawing <$> events)
  = Editor.step env s Editor.StopDrawing.
Proof.
  induction events as [|event events IH]; [reflexivity|].
  cbn [fmap list_fmap].
  change (Editor.run env ?s0 (?a :: ?l)) with (Editor.run env (Editor.step env s0 a) l).
  assert (Hstep : Editor.step env (Editor.step env s Editor.StopDrawing)
                    (Editor.ContinueDrawing event)
                  = Editor.step env s Editor.StopDrawing).
  { unfold Editor.step at 1. cbn [Editor.handle]. unfold Editor.continueDrawing.
    unfold Editor.step. rewrite render_isDrawing. cbn [Editor.handle].
    unfold Editor.stopDrawing. cbn [Editor.isDrawing Editor.setIsDrawing].
    apply render_idempotent. }
  rewrite Hstep. exact IH.
Qed.

(** X15. What is downloaded is the exported alpha mask: [downloadMask]
    right after [generateMaskImage] starts one download, named mask.png,
    of the PNG of the alpha mask of the mask canvas; with no exported mask
    it starts none. *)
Theorem downloadMask_gives_the_alpha_mask (env : Env) (s : Editor.State)
    (m : Canvas.t) :
  Editor.maskCanvasRef s = Some m ->
  context2d env = true ->
  Editor.downloads (Editor.downloadMask (Editor.generateMaskImage env s))
  = ("mask.png", Encoded "image/png" None (Editor.alphaImageData m))
    :: Editor.downloads s
  /\ (Editor.maskImage s = None ->
      Editor.downloads (Editor.downloadMask s) = Editor.downloads s).
Proof.
  intros Hm Hctx. split.
  - rewrite (generateMaskImage_maskImage env s m Hm Hctx). reflexivity.
  - intros Hnone. unfold Editor.downloadMask. rewrite Hnone. reflexivity.
Qed.

Lemma downloadMask_gives_the_alpha_mask_witness :
  Editor.downloads (Editor.downloadMask (Editor.generateMaskImage Sample.env Sample.ready))
  = [("mask.png", Encoded "image/png" None (ImageData.mk 2 1 [0; 0; 0; 0; 0; 0; 0; 0]))]
  /\ Editor.downloads (Editor.downloadMask Sample.ready) = [].
Proof.
  destruct (downloadMask_gives_the_alpha_mask Sample.env Sample.ready
              (Canvas.mk 2 1 [black; black])) as [Hgen Hnone].
  - vm_compute. reflexivity.
  - reflexivity.
  - split.
    + rewrite Hgen. vm_compute. reflexivity.
    + rewrite Hnone; vm_compute; reflexivity.
Defined.

(** ** The edit-image route *)

Lemma recover_reply e :
  (exists error, Gateway.body (Gateway.recover e) = Gateway.Failure error)
  /\ In (Gateway.status (Gateway.recover e)) [400; 401; 408; 413; 429; 500].
Proof.
  unfold Gateway.recover, Gateway.failure.
  destruct (Gateway.isError e); [|split; [eexists; reflexivity | cbn; tauto]].
  destruct (Gateway.thrownStatus e) as [status|];
    repeat case_match; cbn; (split; [eexists; reflexivity | tauto]).
Qed.

Lemma truthyString_nonempty v u : Editor.truthyString v = Some u -> u <> "".
Proof.
  unfold Editor.truthyString. destruct v as [t|]; [|discriminate].
  destruct (String.eqb_spec t ""); [discriminate|]. congruence.
Qed.

Lemma imageUrl_nonempty d u : Gateway.imageUrl d = Some u -> u <> "".
Proof.
  unfold Gateway.imageUrl.
  destruct (Editor.truthyString (Gateway.url d)) as [v|] eqn:Hv.
  - intros [= <-]. exact (truthyString_nonempty _ _ Hv).
  - destruct (Editor.truthyString (Gateway.b64_json d)); [|discriminate].
    intros [= <-]. discriminate.
Qed.


(** X17. Every answer of the route has one of the statuses 200, 400, 401,
    408, 413, 429, 500; it has status 200 exactly when its body is a
    success, which carries a URL that is not empty, and every other answer
    carries an error message. *)
Theorem POST_statuses (api : Gateway.EditParams -> Gateway.ApiOutcome)
    (clock : nat -> Z) (request : Gateway.Request) :
  (Gateway.status (fst (Gateway.POST api clock request)) = 200
   /\ exists u, Gateway.body (fst (Gateway.POST api clock request)) = Gateway.Success u
                /\ u <> "")
  \/ (In (Gateway.status (fst (Gateway.POST api clock request)))
         [400; 401; 408; 413; 429; 500]
      /\ exists error,
           Gateway.body (fst (Gateway.POST api clock request)) = Gateway.Failure error).
Proof.
  unfold Gateway.POST. destruct request as [e|form].
  { right. destruct (recover_reply e) as [Hb Hs]. split; assumption. }
  destruct (acceptable form) eqn:Hacc.
  - destruct (attempt_acceptable api clock form Hacc)
      as (imageFile & maskFile & prompt & _ & _ & _ & ->).
    unfold Gateway.edit.
    destruct (api _) as [e | [[|imageData rest]|]].
    + right. destruct (recover_reply e) as [Hb Hs]. split; assumption.
    + right. split; [cbn; tauto | eexists; reflexivity].
    + destruct (Gateway.imageUrl imageData) as [u|] eqn:Hu.
      * left. split; [reflexivity|]. exists u. split; [reflexivity|].
        exact (imageUrl_nonempty _ _ Hu).
      * right. split; [cbn; tauto | eexists; reflexivity].
    + right. split; [cbn; tauto | eexists; reflexivity].
  - right. destruct (mistyped form) eqn:Hmis.
    + rewrite (attempt_mistyped api clock form Hmis).
      destruct (recover_reply
                  (Gateway.typeError
                     "Cannot read properties of undefined (reading 'startsWith')"))
        as [Hb Hs].
      split; assumption.
    + destruct (attempt_refused api clock form Hacc Hmis) as [error ->].
      split; [cbn; tauto | eexists; reflexivity].
Qed.

(** X18. An error of the image API with status 400, 401, 413, 429 or 500
    is passed on with the same status, after the one call; an error with
    no status whose message mentions ECONNRESET or "Connection error" is
    answered with 408. *)
Theorem POST_maps_upstream_errors (api : Gateway.EditParams -> Gateway.ApiOutcome)
    (clock : nat -> Z) (form : Gateway.Form) (e : Gateway.Thrown) :
  acceptable form = true ->
  (forall params, api params = Gateway.ApiThrows e) ->
  Gateway.isError e = true ->
  (forall c, Gateway.thrownStatus e = Some c -> In c [400; 401; 413; 429; 500] ->
             Gateway.status (fst (Gateway.POST api clock (Gateway.Multipart form))) = c)
  /\ (Gateway.thrownStatus e = None ->
      JS.includes (Gateway.message e) "Connection error"
      || JS.includes (Gateway.message e) "ECONNRESET" = true ->
      Gateway.status (fst (Gateway.POST api clock (Gateway.Multipart form))) = 408)
  /\ length (snd (Gateway.POST api clock (Gateway.Multipart form))) = 1%nat.
Proof.
  intros Hacc Hapi Herr. unfold Gateway.POST.
  destruct (attempt_acceptable api clock form Hacc)
    as (imageFile & maskFile & prompt & _ & _ & _ & ->).
  unfold Gateway.edit. rewrite Hapi. cbn [fst snd length]. unfold Gateway.recover. rewrite Herr.
  split; [|split; [|reflexivity]].
  - intros c Hc Hin. rewrite Hc. cbn in Hin.
    destruct Hin as [<-|[<-|[<-|[<-|[<-|[]]]]]]; reflexivity.
  - intros Hnone Hmsg. rewrite Hnone, Hmsg. reflexivity.
Qed.

(** The image API answers every call with a rate-limit error. *)
Lemma POST_maps_upstream_errors_witness :
  Gateway.POST
    (fun _ => Gateway.ApiThrows
                {| Gateway.isError := true; Gateway.thrownStatus := Some 429;
                   Gateway.message := "429 Too Many Requests" |})
    Sample.clock (Gateway.Multipart Sample.order)
  = (Gateway.failure "Rate limit exceeded. Please try again later." 429,
     [callFor Sample.clock Sample.small Sample.small Sample.pond])
  /\ Gateway.status
       (fst (Gateway.POST
               (fun _ => Gateway.ApiThrows
                           {| Gateway.isError := true; Gateway.thrownStatus := Some 429;
                              Gateway.message := "429 Too Many Requests" |})
               Sample.clock (Gateway.Multipart Sample.order))) = 429.
Proof.
  split; [vm_compute; reflexivity|].
  refine (proj1 (POST_maps_upstream_errors _ Sample.clock Sample.order
                   {| Gateway.isError := true; Gateway.thrownStatus := Some 429;
                      Gateway.message := "429 Too Many Requests" |} _ _ _) 429 _ _).
  - vm_compute. reflexivity.
  - reflexivity.
  - reflexivity.
  - reflexivity.
  - cbn. tauto.
Defined.

(** ** From upload to submission *)

(** X19. The file kept for submission is the file chosen or its JPEG
    re-encoding under the same name, whatever becomes of the upload
    afterwards; a file of at most 4,096,000 bytes is kept as it is. *)
Theorem uploaded_file_is_kept (env : Env) (s : Editor.State) (file : File.t) :
  exists f,
    Editor.originalFile (Editor.handleImageUpload env (Some file) s) = Some f
    /\ (f = file \/ (File.type f = "image/jpeg" /\ File.name f = File.name file))
    /\ (File.size file <= 4096000 -> f = file).
Proof.
  exists (fst (Compressor.compressImage env file 4000)).
  split; [|split].
  - unfold Editor.handleImageUpload, Editor.setupCanvas.
    destruct (readAsDataURL env _); [reflexivity|].
    destruct (String.eqb result ""); [reflexivity|].
    destruct (loadImage env _); [|reflexivity].
    cbn [Editor.canvasRef Editor.maskCanvasRef Editor.setImage Editor.setOriginalFile].
    repeat case_match; reflexivity.
  - destruct (compressImage_resolves_or_jpeg env file 4000) as [H | (Ht & Hn & _)];
      [left; exact H | right; split; assumption].
  - intros Hsize. unfold Compressor.compressImage.
    destruct (Z.leb_spec (File.size file) (4000 * 1024)); [reflexivity | lia].
Qed.

(** X20. A submission that the server answers with success shows the
    edited image: for an OK response whose JSON has [success] true and a
    URL that is not empty, [editedImage] becomes that URL, the error is
    cleared and the submit control is enabled again. *)
Theorem handleSubmit_shows_the_result (env : Env) (s : Editor.State)
    (file : File.t) (m : Canvas.t) (n status : Z) (result : ApiResponse)
    (u : string) :
  Editor.originalFile s = Some file ->
  JS.trim (Editor.prompt s) <> [] ->
  Editor.maskCanvasRef s = Some m ->
  encodedSize env "image/png" None (Canvas.getImageData m) = Some n ->
  fetch env {| formImage := file;
               formMask := Blob.mk n "image/png"
                             (Encoded "image/png" None (Canvas.getImageData m));
               formPrompt := Editor.prompt s |}
  = FetchResponse status (Json result) ->
  200 <= status <= 299 ->
  success result = true ->
  editedImageUrl result = Some u ->
  u <> "" ->
  Editor.editedImage (Editor.handleSubmit env s) = Some u
  /\ Editor.error (Editor.handleSubmit env s) = ""
  /\ Editor.isLoading (Editor.handleSubmit env s) = false.
Proof.
  intros Hf Hp Hm Hn Hfetch Hstatus Hsuccess Hurl Hu.
  unfold Editor.handleSubmit. rewrite Hf.
  destruct (JS.trim (Editor.prompt s)) as [|c t] eqn:Ht; [congruence|].
  cbn [JS.truthy]. unfold Editor.submitted.
  cbn [Editor.maskCanvasRef Editor.setError Editor.setIsLoading Editor.prompt].
  rewrite Hm. unfold toBlob. rewrite Hn, Hfetch.
  assert (Hok : Editor.ok status = true).
  { unfold Editor.ok. destruct (Z.leb_spec 200 status), (Z.leb_spec status 299);
      try reflexivity; lia. }
  rewrite Hok, Hsuccess, Hurl. cbn [negb Editor.truthyString].
  destruct (String.eqb_spec u ""); [contradiction|]. repeat split.
Qed.

Lemma handleSubmit_shows_the_result_witness :
  Editor.editedImage (Editor.handleSubmit Sample.env Sample.ready)
  = Some "https://images.example/edited.png"
  /\ Editor.error (Editor.handleSubmit Sample.env Sample.ready) = ""
  /\ Editor.isLoading (Editor.handleSubmit Sample.env Sample.ready) = false.
Proof.
  apply (handleSubmit_shows_the_result Sample.env Sample.ready Sample.small
           (Canvas.mk 2 1 [black; black]) 108 200
           {| success := true;
              editedImageUrl := Some "https://images.example/edited.png";
              apiError := None |}).
  - vm_compute. reflexivity.
  - vm_compute. discriminate.
  - vm_compute. reflexivity.
  - reflexivity.
  - reflexivity.
  - lia.
  - reflexivity.
  - reflexivity.
  - discriminate.
Defined.
